(** * LDB-Reactjs: the result projector of [src/app/page.tsx]

    A shallow embedding of the non-presentational logic of the page
    component: the column profiles ([getTableColumns]), the table rows
    ([getTableData] and the search filter of the results table), the CSV
    export ([downloadAsExcel]), the result conversion of [handleSubmit] and
    the retrying downloads ([downloadRenamedZip],
    [downloadExcelFromBackend]).

    JavaScript values are the values a JSON response can hold, plus
    [undefined]: null, booleans, integers, strings, and everything else
    (arrays, objects, numbers with a fraction). The page never looks inside
    a value of the last kind: it tests it, calls a string method on it, or
    stringifies it. All of them are truthy and none has a string method, so
    such a value is represented by the text [String] makes of it. Strings
    are sequences of 8-bit characters, and the case mapping and the
    whitespace classes are those of the ASCII range; statements that depend
    on them are stated for ASCII text. *)

From Stdlib Require Import Ascii String.
From stdpp Require Import gmap strings list pretty.
From Equations Require Import Equations.

Local Open Scope string_scope.
Local Open Scope Z_scope.

(** ** JavaScript primitives used by the page *)

Module Js.

(** [JNum n] is the integer [n], which [String] prints in full, as
    JavaScript does for the integers its numbers hold exactly.
    [JOther text] is any other value of a response: an array, an object or
    a number with a fraction, with [text] what [String] makes of it. *)
Inductive value :=
| JUndefined
| JNull
| JBool (b : bool)
| JNum (n : Z)
| JStr (s : string)
| JOther (text : string).

Inductive error :=
| TypeError (message : string).

(** The outcome of evaluating an expression: a value, or a thrown error. *)
Inductive Result (A : Type) :=
| Ok (a : A)
| Throw (e : error).
Arguments Ok {A} a.
Arguments Throw {A} e.

Definition bind {A B} (r : Result A) (f : A -> Result B) : Result B :=
  match r with
  | Ok a => f a
  | Throw e => Throw e
  end.

(** ToBoolean. *)
Definition truthy (v : value) : bool :=
  match v with
  | JUndefined | JNull => false
  | JBool b => b
  | JNum n => negb (n =? 0)
  | JStr s => negb (String.eqb s "")
  | JOther _ => true
  end.

(** [a || b]: the left operand when it is truthy, else the right one; an
    error thrown by the left operand propagates, the right operand is
    looked at only when the left one is falsy. *)
Definition orElse (a b : Result value) : Result value :=
  match a with
  | Ok v => if truthy v then Ok v else b
  | Throw e => Throw e
  end.

(** The same operator where neither operand can throw. *)
Definition orValue (a b : value) : value := if truthy a then a else b.

(** [String(v)]. *)
Definition toString (v : value) : string :=
  match v with
  | JUndefined => "undefined"
  | JNull => "null"
  | JBool true => "true"
  | JBool false => "false"
  | JNum n => pretty n
  | JStr s => s
  | JOther text => text
  end.

(** [s.split(sep)] for a one-character separator: never empty, the
    pieces between the separators, in order. *)
Fixpoint split (sep : ascii) (s : string) : list string :=
  match s with
  | EmptyString => [""]
  | String c s' =>
      if Ascii.eqb c sep then "" :: split sep s'
      else match split sep s' with
           | [] => [String c ""]
           | w :: ws => String c w :: ws
           end
  end.

Fixpoint trimStart (s : string) : string :=
  match s with
  | EmptyString => ""
  | String c s' => if Ascii.is_space c then trimStart s' else s
  end.

Fixpoint trimEnd (s : string) : string :=
  match s with
  | EmptyString => ""
  | String c s' =>
      match trimEnd s' with
      | EmptyString => if Ascii.is_space c then "" else String c ""
      | t => String c t
      end
  end.

Definition trim (s : string) : string := trimEnd (trimStart s).

Definition lower (c : ascii) : ascii :=
  let n := nat_of_ascii c in
  if ((65 <=? n) && (n <=? 90))%nat then ascii_of_nat (n + 32) else c.

Fixpoint toLowerCase (s : string) : string :=
  match s with
  | EmptyString => ""
  | String c s' => String (lower c) (toLowerCase s')
  end.

(** [s.includes(q)]. *)
Fixpoint includes (s q : string) : bool :=
  String.prefix q s ||
  match s with
  | EmptyString => false
  | String _ s' => includes s' q
  end.

(** [l.join(sep)] on an array of strings. *)
Fixpoint join (sep : string) (l : list string) : string :=
  match l with
  | [] => ""
  | [x] => x
  | x :: l' => x +:+ sep +:+ join sep l'
  end.

(** [v?.split(",")[i]]: the whole chain is [undefined] on a nullish
    receiver; a receiver without a [split] method throws. *)
Definition optSplitAt (i : nat) (v : value) : Result value :=
  match v with
  | JUndefined | JNull => Ok JUndefined
  | JStr s => Ok (from_option JStr JUndefined (split "," s !! i))
  | JBool _ | JNum _ | JOther _ => Throw (TypeError "split is not a function")
  end.

(** [r?.trim()]. *)
Definition optTrim (v : value) : Result value :=
  match v with
  | JUndefined | JNull => Ok JUndefined
  | JStr s => Ok (JStr (trim s))
  | JBool _ | JNum _ | JOther _ => Throw (TypeError "trim is not a function")
  end.

End Js.
Export Js.

Declare Scope js_scope.
Delimit Scope js_scope with js.
Infix "|||" := Js.orElse (at level 50, left associativity) : js_scope.
Local Open Scope js_scope.

Global Instance value_eq_dec : EqDecision value.
Proof. solve_decision. Defined.

(** An object used as a string-keyed map; [o.[k]] reads a property, which
    is [undefined] when the key is absent. *)
Abbreviation ExtractedData := (gmap string value).

Definition get (o : gmap string value) (k : string) : value :=
  default JUndefined (o !! k).
Notation "o .[ k ]" := (get o k) (at level 1, left associativity, format "o .[ k ]").

(** ** The data of the page (interfaces at the top of the file) *)

Inductive Status := success | error.

Record ResultItem := {
  filename : value;
  status : Status;
  data : option ExtractedData;
  error_message : option string;
}.

Record DownloadLinks := {
  excel : option string;
  zip : option string;
}.

Record FileInfo := {
  excel_filename : option string;
  zip_filename : option string;
  zip_size : option Z;
  total_renamed_files : option Z;
  total_records : option Z;
}.

Record ApiResponse := {
  api_success : bool;
  timestamp : string;
  total_files : Z;
  processed_files : Z;
  failed_files : option Z;
  results : option (list ResultItem);
  extraction_data : option (list ExtractedData);
  renamed_files : option (gmap string string);
  download_links : option DownloadLinks;
  file_info : option FileInfo;
}.

(** One entry of the browser's [FileList]. *)
Record File := {
  file_name : string;
  file_size : Z;
  file_type : string;
}.

Inductive ApiStatus := checking | online | offline.

(** The [useState] cells of [PDFExtractorPage]. *)
Record PageState := {
  files : option (list File);
  loading : bool;
  st_results : option ApiResponse;
  apiStatus : ApiStatus;
  documentType : string;
  useNameForRename : bool;
  usePassportForRename : bool;
  enableFileRename : bool;
  searchQuery : string;
  activeTab : string;
}.

(** [r.status === "success" && r.data] *)
Definition successful (r : ResultItem) : bool :=
  match status r, data r with
  | success, Some _ => true
  | _, _ => false
  end.

(** ** [getTableColumns] *)

Definition columns_SKTT : list string :=
  [ "Name"; "NIK"; "Place of Birth"; "Date of Birth"; "Gender"; "Nationality";
    "Occupation"; "Address"; "KITAS/KITAP"; "Passport Expiry"; "Date Issue";
    "Document Type" ].

Definition columns_EVLN : list string :=
  [ "Name"; "Place of Birth"; "Date of Birth"; "Passport No"; "Passport Expiry";
    "Date Issue"; "Document Type" ].

Definition columns_ITAS_ITK : list string :=
  [ "Name"; "Permit Number"; "Place & Date of Birth"; "Passport Number";
    "Passport Expiry"; "Nationality"; "Gender"; "Address"; "Occupation";
    "Date Issue"; "Document Type" ].

Definition columns_Notifikasi : list string :=
  [ "Nomor Keputusan"; "Nama TKA"; "Tempat/Tanggal Lahir"; "Kewarganegaraan";
    "Alamat Tempat Tinggal"; "Nomor Paspor"; "Jabatan"; "Lokasi Kerja"; "Berlaku";
    "Date Issue"; "Document Type" ].

Definition columns_DKPTKA : list string :=
  [ "Nama Pemberi Kerja"; "Alamat"; "No Telepon"; "Email"; "Nama TKA";
    "Tempat/Tanggal Lahir"; "Nomor Paspor"; "Kewarganegaraan"; "Jabatan";
    "Lokasi Kerja"; "Kode Billing Pembayaran"; "DKPTKA"; "Document Type" ].

Definition columns_default : list string :=
  [ "Name"; "Place of Birth"; "Date of Birth"; "Passport No"; "Passport Expiry";
    "Date Issue"; "Document Type" ].

(** The [switch (documentType)] of [getTableColumns]. *)
Definition columnsOf (documentType : string) : list string :=
  if String.eqb documentType "SKTT" then columns_SKTT
  else if String.eqb documentType "EVLN" then columns_EVLN
  else if String.eqb documentType "ITAS" then columns_ITAS_ITK
  else if String.eqb documentType "ITK" then columns_ITAS_ITK
  else if String.eqb documentType "Notifikasi" then columns_Notifikasi
  else if String.eqb documentType "DKPTKA" then columns_DKPTKA
  else columns_default.

Definition getTableColumns (st : PageState) : list string :=
  match st_results st with
  | None => []
  | Some res =>
      match results res with
      | None | Some [] => []
      | Some items =>
          match find successful items with
          | None => []
          | Some _ => columnsOf (documentType st)
          end
      end
  end.

(** ** [getTableData], the search filter and the cells of the results table *)

(** [{ index, filename: result.filename, ...result.data }]: the properties
    of the record come last and override the two leading ones. *)
Definition tableRow (index : nat) (result : ResultItem) : gmap string value :=
  default ∅ (data result)
    ∪ <["filename" := filename result]> {[ "index" := JNum (Z.of_nat index) ]}.

Definition getTableData (st : PageState) : list (gmap string value) :=
  match st_results st with
  | None => []
  | Some res =>
      match results res with
      | None => []
      | Some items => imap tableRow (List.filter successful items)
      end
  end.

(** [Object.values(row).some(val =>
       String(val).toLowerCase().includes(searchQuery.toLowerCase()))] *)
Definition rowMatches (query : string) (row : gmap string value) : bool :=
  existsb (fun kv => includes (toLowerCase (toString kv.2)) (toLowerCase query))
          (map_to_list row).

(** [!searchQuery || ...] *)
Definition keepRow (query : string) (row : gmap string value) : bool :=
  String.eqb query "" || rowMatches query row.

Definition filterBySearch (rows : list (gmap string value)) (query : string)
  : list (gmap string value) :=
  List.filter (keepRow query) rows.

(** [row[column] || "-"] *)
Definition displayCell (row : gmap string value) (column : string) : value :=
  orValue row.[column] (JStr "-").

Record TableRow := {
  cell_no : Z;
  cell_filename : value;
  cells : list value;
}.

(** The rows rendered in the table body. *)
Definition tableBody (st : PageState) : list TableRow :=
  imap (fun index row =>
          {| cell_no := Z.of_nat index + 1;
             cell_filename := row.["filename"];
             cells := map (displayCell row) (getTableColumns st) |})
       (filterBySearch (getTableData st) (searchQuery st)).

(** ** [downloadAsExcel]: the export records and the CSV text *)

(** An export record: an object whose own keys are kept in creation order
    ([Object.keys] below depends on it). While the object literal is being
    evaluated each property holds the outcome of its expression. *)
Abbreviation ExportRecord := (list (string * value)).

Definition baseData (index : nat) (result : ResultItem) (documentType : string)
  : list (string * Result value) :=
  let d := default ∅ (data result) in
  [ ("No", Ok (JNum (Z.of_nat index + 1)));
    ("Filename", Ok (filename result));
    ("Document Type", Ok d.["Jenis Dokumen"] ||| Ok (JStr documentType)) ].

(** The properties after [...baseData] in the [DKPTKA] branch. *)
Definition fields_DKPTKA (d : ExtractedData) : list (string * Result value) :=
  [ ("Nama Pemberi Kerja", Ok d.["Nama Pemberi Kerja"] ||| Ok (JStr ""));
    ("Alamat", Ok d.["Alamat"] ||| Ok (JStr ""));
    ("No Telepon", Ok d.["No Telepon"] ||| Ok (JStr ""));
    ("Email", Ok d.["Email"] ||| Ok (JStr ""));
    ("Nama TKA", Ok d.["Nama TKA"] ||| Ok (JStr ""));
    ("Tempat/Tanggal Lahir", Ok d.["Tempat/Tanggal Lahir"] ||| Ok (JStr ""));
    ("Nomor Paspor", Ok d.["Nomor Paspor"] ||| Ok (JStr ""));
    ("Kewarganegaraan", Ok d.["Kewarganegaraan"] ||| Ok (JStr ""));
    ("Jabatan", Ok d.["Jabatan"] ||| Ok (JStr ""));
    ("Lokasi Kerja", Ok d.["Lokasi Kerja"] ||| Ok (JStr ""));
    ("Kode Billing Pembayaran", Ok d.["Kode Billing Pembayaran"] ||| Ok (JStr ""));
    ("DKPTKA", Ok d.["DKPTKA"] ||| Ok (JStr "")) ].

(** The properties after [...baseData] in the [else] branch. *)
Definition fields_generic (d : ExtractedData) : list (string * Result value) :=
  [ ("Name", Ok d.["Name"] ||| Ok d.["Nama TKA"] ||| Ok (JStr ""));
    ("Place of Birth",
      Ok d.["Place of Birth"] ||| optSplitAt 0 d.["Place & Date of Birth"]
        ||| Ok (JStr ""));
    ("Date of Birth",
      Ok d.["Date of Birth"]
        ||| bind (optSplitAt 1 d.["Place & Date of Birth"]) optTrim
        ||| Ok d.["Tempat/Tanggal Lahir"]
        ||| Ok (JStr ""));
    ("Passport No",
      Ok d.["Passport No"] ||| Ok d.["Passport Number"] ||| Ok d.["Nomor Paspor"]
        ||| Ok (JStr ""));
    ("Passport Expiry", Ok d.["Passport Expiry"] ||| Ok (JStr ""));
    ("Date Issue", Ok d.["Date Issue"] ||| Ok (JStr ""));
    ("NIK", Ok d.["NIK"] ||| Ok (JStr ""));
    ("Nationality", Ok d.["Nationality"] ||| Ok d.["Kewarganegaraan"] ||| Ok (JStr ""));
    ("Gender", Ok d.["Jenis Kelamin"] ||| Ok d.["Gender"] ||| Ok (JStr ""));
    ("Address", Ok d.["Address"] ||| Ok d.["Alamat Tempat Tinggal"] ||| Ok (JStr ""));
    ("Occupation", Ok d.["Occupation"] ||| Ok d.["Jabatan"] ||| Ok (JStr ""));
    ("Permit Number", Ok d.["Permit Number"] ||| Ok (JStr ""));
    ("Stay Permit Expiry", Ok d.["Stay Permit Expiry"] ||| Ok (JStr ""));
    ("Nomor Keputusan", Ok d.["Nomor Keputusan"] ||| Ok (JStr ""));
    ("Lokasi Kerja", Ok d.["Lokasi Kerja"] ||| Ok (JStr ""));
    ("Berlaku", Ok d.["Berlaku"] ||| Ok (JStr "")) ].

Definition exportFields (documentType : string) (d : ExtractedData)
  : list (string * Result value) :=
  if String.eqb documentType "DKPTKA" then fields_DKPTKA d else fields_generic d.

(** Evaluation of an object literal, property by property: the first
    expression that throws aborts the whole literal. *)
Fixpoint evalLiteral (props : list (string * Result value)) : Result ExportRecord :=
  match props with
  | [] => Ok []
  | (k, Ok v) :: rest => bind (evalLiteral rest) (fun r => Ok ((k, v) :: r))
  | (_, Throw e) :: _ => Throw e
  end.

(** The callback of [successfulResults.map]. *)
Definition exportRecord (documentType : string) (index : nat) (result : ResultItem)
  : Result ExportRecord :=
  evalLiteral (baseData index result documentType
                 ++ exportFields documentType (default ∅ (data result))).

(** [Array.prototype.map] with a callback that may throw. *)
Fixpoint mapResult {A B} (f : nat -> A -> Result B) (index : nat) (l : list A)
  : Result (list B) :=
  match l with
  | [] => Ok []
  | x :: l' =>
      bind (f index x) (fun y =>
      bind (mapResult f (S index) l') (fun ys => Ok (y :: ys)))
  end.

Definition buildExportRecords (documentType : string) (items : list ResultItem)
  : Result (list ExportRecord) :=
  mapResult (exportRecord documentType) 0%nat (List.filter successful items).

(** [row[header]] on an export record. *)
Fixpoint field (row : ExportRecord) (header : string) : value :=
  match row with
  | [] => JUndefined
  | (k, v) :: rest => if String.eqb k header then v else field rest header
  end.

(** [Object.keys(excelData[0] || {})] *)
Definition csvHeaders (excelData : list ExportRecord) : list string :=
  match excelData with
  | [] => []
  | first :: _ => map fst first
  end.

(** The template literal of a CSV cell: [row[header]], or the empty string
    when that is falsy, stringified between two double quotes. *)
Definition csvCell (row : ExportRecord) (header : string) : string :=
  let v := field row header in
  let quote := String "034" "" in
  quote +:+ toString (orValue v (JStr "")) +:+ quote.

(** The array that is joined with newlines: the header line, then one
    line per export record. *)
Definition csvLines (excelData : list ExportRecord) : list string :=
  let headers := csvHeaders excelData in
  join "," headers
    :: map (fun row => join "," (map (csvCell row) headers)) excelData.

Definition csvContent (excelData : list ExportRecord) : string :=
  join (String "010" "") (csvLines excelData).

(** The file handed to the browser: its name and its text. [today] stands
    for [new Date().toISOString().split("T")[0]]. *)
Record CsvFile := {
  csv_name : string;
  csv_text : string;
}.

(** [downloadAsExcel]: [None] is the early [return] that produces no file. *)
Definition downloadAsExcel (st : PageState) (today : string)
  : Result (option CsvFile) :=
  match st_results st with
  | None => Ok None
  | Some res =>
      match results res with
      | None => Ok None
      | Some items =>
          bind (buildExportRecords (documentType st) items) (fun excelData =>
          Ok (Some {| csv_name := "Hasil_Ekstraksi_" +:+ documentType st +:+ "_"
                                    +:+ today +:+ ".csv";
                      csv_text := csvContent excelData |}))
      end
  end.

(** ** The resolution rules of the export, as a table

    Every field expression of the two object literals above has the shape
    [s1 || s2 || ... || ""], where each [s] reads one key of the record:
    plainly, or through [?.split(",")[i]], or through
    [?.split(",")[i]?.trim()]. The table lists, per export column, the
    sources in the order the code tries them. *)

Inductive Source :=
| Field (key : string)
| SplitAt (key : string) (i : nat)
| SplitAtTrim (key : string) (i : nat).

Global Instance Source_eq_dec : EqDecision Source.
Proof. solve_decision. Defined.

Definition sourceKey (s : Source) : string :=
  match s with
  | Field k | SplitAt k _ | SplitAtTrim k _ => k
  end.

Definition evalSource (d : ExtractedData) (s : Source) : Result value :=
  match s with
  | Field k => Ok d.[k]
  | SplitAt k i => optSplitAt i d.[k]
  | SplitAtTrim k i => bind (optSplitAt i d.[k]) optTrim
  end.

Fixpoint evalChain (d : ExtractedData) (chain : list Source) : Result value :=
  match chain with
  | [] => Ok (JStr "")
  | s :: rest => evalSource d s ||| evalChain d rest
  end.

Definition profile_DKPTKA : list (string * list Source) :=
  [ ("Nama Pemberi Kerja", [Field "Nama Pemberi Kerja"]);
    ("Alamat", [Field "Alamat"]);
    ("No Telepon", [Field "No Telepon"]);
    ("Email", [Field "Email"]);
    ("Nama TKA", [Field "Nama TKA"]);
    ("Tempat/Tanggal Lahir", [Field "Tempat/Tanggal Lahir"]);
    ("Nomor Paspor", [Field "Nomor Paspor"]);
    ("Kewarganegaraan", [Field "Kewarganegaraan"]);
    ("Jabatan", [Field "Jabatan"]);
    ("Lokasi Kerja", [Field "Lokasi Kerja"]);
    ("Kode Billing Pembayaran", [Field "Kode Billing Pembayaran"]);
    ("DKPTKA", [Field "DKPTKA"]) ].

Definition profile_generic : list (string * list Source) :=
  [ ("Name", [Field "Name"; Field "Nama TKA"]);
    ("Place of Birth", [Field "Place of Birth"; SplitAt "Place & Date of Birth" 0]);
    ("Date of Birth",
      [Field "Date of Birth"; SplitAtTrim "Place & Date of Birth" 1;
       Field "Tempat/Tanggal Lahir"]);
    ("Passport No", [Field "Passport No"; Field "Passport Number"; Field "Nomor Paspor"]);
    ("Passport Expiry", [Field "Passport Expiry"]);
    ("Date Issue", [Field "Date Issue"]);
    ("NIK", [Field "NIK"]);
    ("Nationality", [Field "Nationality"; Field "Kewarganegaraan"]);
    ("Gender", [Field "Jenis Kelamin"; Field "Gender"]);
    ("Address", [Field "Address"; Field "Alamat Tempat Tinggal"]);
    ("Occupation", [Field "Occupation"; Field "Jabatan"]);
    ("Permit Number", [Field "Permit Number"]);
    ("Stay Permit Expiry", [Field "Stay Permit Expiry"]);
    ("Nomor Keputusan", [Field "Nomor Keputusan"]);
    ("Lokasi Kerja", [Field "Lokasi Kerja"]);
    ("Berlaku", [Field "Berlaku"]) ].

Definition exportProfile (documentType : string) : list (string * list Source) :=
  if String.eqb documentType "DKPTKA" then profile_DKPTKA else profile_generic.

(** The keys a column may be resolved from, in priority order. *)
Definition candidateKeys (chain : list Source) : list string :=
  map sourceKey chain.

(** A column's primary key is its own name; the remaining keys of its rule
    are its fallback keys. *)
Definition fallbackKeys (column : string) (chain : list Source) : list string :=
  List.filter (fun k => negb (String.eqb k column)) (candidateKeys chain).

(** The rule tries the column's own key before any other source. *)
Definition ownKeyFirst (column : string) (chain : list Source) : bool :=
  match chain with
  | Field k :: _ => String.eqb k column
  | _ => false
  end.

(** The combined birth field is a string, or is nullish: the only
    expressions of the export that can throw are the two that call [split]
    on it, and a number, a boolean, an array or an object has no such
    method. *)
Definition splittable (d : ExtractedData) : bool :=
  match d.["Place & Date of Birth"] with
  | JStr _ | JNull | JUndefined => true
  | JBool _ | JNum _ | JOther _ => false
  end.

(** ** [handleSubmit]: what the page keeps of a response *)

(** [extractedData.Source_File || files[index]?.name || `File ${index + 1}`] *)
Definition convertedFilename (fs : list File) (index : nat) (extractedData : ExtractedData)
  : value :=
  orValue
    (orValue extractedData.["Source_File"]
             (from_option (fun f => JStr (file_name f)) JUndefined (fs !! index)))
    (JStr ("File " +:+ pretty (Z.of_nat index + 1))).

Definition convertedResults (fs : list File) (extraction : list ExtractedData)
  : list ResultItem :=
  imap (fun index extractedData =>
          {| filename := convertedFilename fs index extractedData;
             status := success;
             data := Some extractedData;
             error_message := None |})
       extraction.

(** [{ ...data, results: convertedResults }] *)
Definition withResults (d : ApiResponse) (items : list ResultItem) : ApiResponse :=
  {| api_success := api_success d;
     timestamp := timestamp d;
     total_files := total_files d;
     processed_files := processed_files d;
     failed_files := failed_files d;
     results := Some items;
     extraction_data := extraction_data d;
     renamed_files := renamed_files d;
     download_links := download_links d;
     file_info := file_info d |}.

(** The argument of [setResults]: both the rename and the non-rename path
    rebuild [results] from [extraction_data] when the response has it. *)
Definition acceptedResults (rename : bool) (fs : list File) (d : ApiResponse)
  : ApiResponse :=
  match rename, extraction_data d with
  | true, Some extraction => withResults d (convertedResults fs extraction)
  | false, Some extraction => withResults d (convertedResults fs extraction)
  | _, None => d
  end.

(** How the [fetch] of a submission ends. *)
Inductive SubmitOutcome :=
| SubmitFailed                                   (* fetch or response.json() threw *)
| SubmitHttpError (http_status : Z) (body : string) (* !response.ok *)
| SubmitJson (d : ApiResponse).

Definition setSubmitted (st : PageState) (held : option ApiResponse) (tab : string)
  : PageState :=
  {| files := files st;
     loading := false;
     st_results := held;
     apiStatus := apiStatus st;
     documentType := documentType st;
     useNameForRename := useNameForRename st;
     usePassportForRename := usePassportForRename st;
     enableFileRename := enableFileRename st;
     searchQuery := searchQuery st;
     activeTab := tab |}.

(** The state after [handleSubmit] has run to completion. *)
Definition handleSubmit (st : PageState) (o : SubmitOutcome) : PageState :=
  match files st with
  | None | Some [] => st
  | Some fs =>
      match apiStatus st with
      | offline => st
      | _ =>
          match o with
          | SubmitJson d =>
              setSubmitted st (Some (acceptedResults (enableFileRename st) fs d)) "results"
          | _ => setSubmitted st (st_results st) (activeTab st)
          end
      end
  end.

(** [processedFiles + failedFiles <= totalFiles]; an absent [failed_files]
    counts no failure. *)
Definition countersConsistent (r : ApiResponse) : Prop :=
  processed_files r + default 0 (failed_files r) <= total_files r.

(** ** [downloadRenamedZip] and [downloadExcelFromBackend] *)

(** The two functions are the same code up to the link they read, the
    default file name, the abort timeout and the toast texts. *)
Inductive Artifact := ZipArchive | ExcelSheet.

(** What a [try] body can throw. *)
Inductive Thrown :=
| AbortError                        (* DOMException named "AbortError" *)
| TypeErr (message : string)        (* a TypeError, as [fetch] rejects with *)
| Err (message : string)            (* any other Error *)
| NotAnError.                       (* a thrown value that is no Error *)

Record Response := {
  resp_status : Z;
  resp_statusText : string;
  resp_text : Thrown + string;      (* await response.text() *)
  resp_blob_size : Thrown + Z;      (* (await response.blob()).size *)
}.

Inductive FetchOutcome :=
| Rejected (e : Thrown)
| Responded (r : Response).

(** [response.ok] *)
Definition resp_ok (r : Response) : bool :=
  (200 <=? resp_status r) && (resp_status r <=? 299).

(** The [retryCount] argument. The recursive calls pass numbers; the
    buttons are wired as [onClick={downloadRenamedZip}], so a click passes
    the click event, which is not [undefined] and hence replaces the default
    [0]. [NotNumeric] is that event, or the string [retryCount + 1] makes of
    it. *)
Inductive RetryCount :=
| Num (n : nat)
| NotNumeric.

(** [retryCount < 2]: a non-numeric operand converts to NaN. *)
Definition belowTwo (rc : RetryCount) : bool :=
  match rc with
  | Num n => (n <? 2)%nat
  | NotNumeric => false
  end.

(** [retryCount + 1] *)
Definition plusOne (rc : RetryCount) : RetryCount :=
  match rc with
  | Num n => Num (S n)
  | NotNumeric => NotNumeric
  end.

Inductive Event :=
| Fetch (url : string) (timeout_ms : Z)
| Sleep (ms : Z)
| SaveFile (name : string) (size : Z)
| ToastDone (title : string) (size : Z)
| ToastError (title description : string).

Definition isFetch (e : Event) : bool :=
  match e with Fetch _ _ => true | _ => false end.

Definition isSleep (e : Event) : bool :=
  match e with Sleep _ => true | _ => false end.

Definition fetchAttempts (trace : list Event) : nat :=
  length (List.filter isFetch trace).

Definition linkOf (a : Artifact) (res : ApiResponse) : option string :=
  links ← download_links res;
  match a with ZipArchive => zip links | ExcelSheet => excel links end.

Definition defaultName (a : Artifact) : string :=
  match a with
  | ZipArchive => "renamed_files.zip"
  | ExcelSheet => "hasil_ekstraksi.xlsx"
  end.

Definition timeoutOf (a : Artifact) : Z :=
  match a with ZipArchive => 60000 | ExcelSheet => 30000 end.

Definition noLinkText (a : Artifact) : string :=
  match a with
  | ZipArchive => "No ZIP download link available. Please try processing the files again."
  | ExcelSheet => "No Excel download link available. Please try processing the files again."
  end.

Definition emptyText (a : Artifact) : string :=
  match a with
  | ZipArchive => "Downloaded file is empty"
  | ExcelSheet => "Downloaded Excel file is empty"
  end.

Definition doneTitle (a : Artifact) : string :=
  match a with
  | ZipArchive => "Download Complete"
  | ExcelSheet => "Excel Download Complete"
  end.

Definition retryTitle (a : Artifact) : string :=
  match a with
  | ZipArchive => "Download Failed"
  | ExcelSheet => "Excel Download Failed"
  end.

Definition failedTitle (a : Artifact) : string :=
  match a with
  | ZipArchive => "Download Error"
  | ExcelSheet => "Excel Download Error"
  end.

Definition failedText (a : Artifact) (errorMessage : string) : string :=
  match a with
  | ZipArchive => "Failed to download ZIP file: " +:+ errorMessage
  | ExcelSheet => "Failed to download Excel file: " +:+ errorMessage
  end.

(** [path.split("/").pop() || default] *)
Definition fileNameOf (a : Artifact) (path : string) : string :=
  match last (split "/" path) with
  | Some name => if String.eqb name "" then defaultName a else name
  | None => defaultName a
  end.

(** [`HTTP ${response.status}: ${errorText || response.statusText}`] *)
Definition httpMessage (r : Response) (errorText : string) : string :=
  "HTTP " +:+ pretty (resp_status r) +:+ ": "
    +:+ (if String.eqb errorText "" then resp_statusText r else errorText).

(** The [errorMessage] computed at the top of the [catch] block. *)
Definition errorMessageOf (e : Thrown) : string :=
  match e with
  | AbortError => "Download timed out. Please try again."
  | TypeErr m =>
      if includes m "Failed to fetch" then "Network error. Please check your connection."
      else m
  | Err m => m
  | NotAnError => "Unknown error occurred"
  end.

(** [errorMessage.includes("404") || errorMessage.includes("Network")] *)
Definition retryable (errorMessage : string) : bool :=
  includes errorMessage "404" || includes errorMessage "Network".

(** One activation of the function: it either ends, or sleeps and calls
    itself with [retryCount + 1]. *)
Inductive Step :=
| Finished (trace : list Event)
| Again (trace : list Event).

(** The [try] body after [fetch] has settled: [inl] is a [throw] that lands
    in the [catch] block. *)
Definition tryBody (a : Artifact) (name : string) (rc : RetryCount) (o : FetchOutcome)
  : Thrown + Step :=
  match o with
  | Rejected e => inl e
  | Responded r =>
      if negb (resp_ok r) then
        match resp_text r with
        | inl e => inl e
        | inr errorText =>
            if (resp_status r =? 404) && belowTwo rc then inr (Again [Sleep 3000])
            else inl (Err (httpMessage r errorText))
        end
      else
        match resp_blob_size r with
        | inl e => inl e
        | inr size =>
            if size =? 0 then inl (Err (emptyText a))
            else inr (Finished [SaveFile name size; ToastDone (doneTitle a) size])
        end
  end.

Definition catchBlock (a : Artifact) (rc : RetryCount) (e : Thrown) : Step :=
  let errorMessage := errorMessageOf e in
  if belowTwo rc && retryable errorMessage then
    Again [ToastError (retryTitle a) (errorMessage +:+ " Attempting retry..."); Sleep 2000]
  else
    Finished [ToastError (failedTitle a) (failedText a errorMessage)].

Definition prepend (e : Event) (s : Step) : Step :=
  match s with
  | Finished t => Finished (e :: t)
  | Again t => Again (e :: t)
  end.

Definition activation (API_URL : string) (a : Artifact) (held : option ApiResponse)
    (rc : RetryCount) (o : FetchOutcome) : Step :=
  match held with
  | None =>
      Finished [ToastError "Error" "No results available. Please process files first."]
  | Some res =>
      match linkOf a res with
      | None => Finished [ToastError "Error" (noLinkText a)]
      | Some path =>
          if String.eqb path "" then Finished [ToastError "Error" (noLinkText a)]
          else
            prepend (Fetch (API_URL +:+ path) (timeoutOf a))
              match tryBody a (fileNameOf a path) rc o with
              | inr s => s
              | inl e => catchBlock a rc e
              end
      end
  end.

(** Calls still allowed below the current one. *)
Definition budget (rc : RetryCount) : nat :=
  match rc with
  | Num n => 2 - n
  | NotNumeric => 0
  end.

Definition inspect {A} (x : A) : { y : A | x = y } := exist _ x eq_refl.

Section Download.
Variable API_URL : string.
(** [net k] is how the [k]-th [fetch] of the interaction settles. *)
Variable net : nat -> FetchOutcome.
Variable a : Artifact.
(** The [results] state captured by the closure. *)
Variable held : option ApiResponse.

Equations? download (rc : RetryCount) (k : nat) : list Event
  by wf (budget rc) lt :=
  download rc k with inspect (activation API_URL a held rc (net k)) := {
    | exist _ (Finished trace) _ => trace
    | exist _ (Again trace) H => trace ++ download (plusOne rc) (S k) }.
Proof.
  assert (belowTwo rc = true) as Hlt.
  { revert H. unfold activation, tryBody, catchBlock, prepend.
    destruct (belowTwo rc); [done|].
    repeat (case_match; simplify_eq/=; try done);
      rewrite ?andb_false_r in *; simplify_eq/=. }
  destruct rc as [n|]; simpl in *; [|done].
  apply Nat.ltb_lt in Hlt. lia.
Qed.
End Download.

Definition downloadRenamedZip (API_URL : string) (net : nat -> FetchOutcome)
    (st : PageState) (retryCount : RetryCount) : list Event :=
  download API_URL net ZipArchive (st_results st) retryCount 0.

Definition downloadExcelFromBackend (API_URL : string) (net : nat -> FetchOutcome)
    (st : PageState) (retryCount : RetryCount) : list Event :=
  download API_URL net ExcelSheet (st_results st) retryCount 0.

(** ** Readings of a download trace *)

(** The two guards at the top of the function let it reach [fetch]. *)
Definition linked (a : Artifact) (held : option ApiResponse) : bool :=
  match held with
  | Some res =>
      match linkOf a res with
      | Some path => negb (String.eqb path "")
      | None => false
      end
  | None => false
  end.

(** The message of the failure an attempt ends in, if it fails: what
    [errorMessage] is, or would be, in the [catch] block. *)
Definition failureMessage (a : Artifact) (o : FetchOutcome) : option string :=
  match o with
  | Rejected e => Some (errorMessageOf e)
  | Responded r =>
      if negb (resp_ok r) then
        match resp_text r with
        | inl e => Some (errorMessageOf e)
        | inr errorText => Some (httpMessage r errorText)
        end
      else
        match resp_blob_size r with
        | inl e => Some (errorMessageOf e)
        | inr size => if size =? 0 then Some (emptyText a) else None
        end
  end.

(** The attempt failed with a message that contains "404" or "Network". *)
Definition retryCause (a : Artifact) (o : FetchOutcome) : Prop :=
  exists m, failureMessage a o = Some m /\ retryable m = true.

(** The toasts that end an interaction: the download completed, or an
    error that is not followed by a retry. *)
Definition isTerminalToast (a : Artifact) (e : Event) : bool :=
  match e with
  | ToastDone title _ => String.eqb title (doneTitle a)
  | ToastError title _ => String.eqb title "Error" || String.eqb title (failedTitle a)
  | _ => false
  end.

Definition sleepOK (e : Event) : Prop :=
  forall ms, e = Sleep ms -> ms = 3000 \/ ms = 2000.

(** The facts about the trace of a download that started at the [k]-th
    fetch of the interaction with retry count [rc], once the guards let it
    reach [fetch]. *)
Definition traceInv (a : Artifact) (net : nat -> FetchOutcome)
    (rc : RetryCount) (k : nat) (trace : list Event) : Prop :=
  (1 <= fetchAttempts trace <= S (budget rc))%nat
  /\ (forall j, (S j < fetchAttempts trace)%nat -> retryCause a (net (k + j)%nat))
  /\ Forall sleepOK trace
  /\ S (length (List.filter isSleep trace)) = fetchAttempts trace
  /\ exists e, last trace = Some e /\ isTerminalToast a e = true.




(** ** Auxiliary readings of the state *)

(** [results.results], or no item when there is no batch. *)
Definition heldItems (st : PageState) : list ResultItem :=
  match st_results st with
  | Some res => default [] (results res)
  | None => []
  end.

(** The tags the [switch] of [getTableColumns] names (and the [select]
    element offers). *)
Definition knownTags : list string :=
  [ "SKTT"; "EVLN"; "ITAS"; "ITK"; "Notifikasi"; "DKPTKA" ].

(** [setDocumentType(tag)] *)
Definition setDocumentType (st : PageState) (tag : string) : PageState :=
  {| files := files st;
     loading := loading st;
     st_results := st_results st;
     apiStatus := apiStatus st;
     documentType := tag;
     useNameForRename := useNameForRename st;
     usePassportForRename := usePassportForRename st;
     enableFileRename := enableFileRename st;
     searchQuery := searchQuery st;
     activeTab := activeTab st |}.

(** [r.status === "success"], whether or not the item carries data. *)
Definition statusIsSuccess (r : ResultItem) : bool :=
  match status r with
  | success => true
  | error => false
  end.

(** ** Shapes of text

    The case mapping and the whitespace classes of the primitives above are
    those of the ASCII range. The predicates below delimit the text on
    which they are the ones of JavaScript. *)

(** Every character is in the ASCII range. *)
Fixpoint isAscii (s : string) : bool :=
  match s with
  | EmptyString => true
  | String c s' => (nat_of_ascii c <? 128)%nat && isAscii s'
  end.









(** ** What the search is meant to select

    Containment up to the case of the letters A to Z, stated without the
    lower-casing the code goes through: [q] occurs in [s] when some segment
    of [s] equals [q] character by character, a letter being equal to
    itself in the other case. *)








(** ** Sample states, for the worked examples below *)

(** A page that holds a batch with the given items under the given tag. *)
Definition state_example (tag : string) (items : list ResultItem) : PageState :=
  {| files := None; loading := false;
     st_results :=
       Some {| api_success := true; timestamp := "2025-01-01T00:00:00";
               total_files := 1; processed_files := 1; failed_files := None;
               results := Some items; extraction_data := None;
               renamed_files := None; download_links := None;
               file_info := None |};
     apiStatus := online; documentType := tag;
     useNameForRename := true; usePassportForRename := true;
     enableFileRename := false; searchQuery := ""; activeTab := "results" |}.

(** Two readable files around one that failed. *)
Definition batch_example : list ResultItem :=
  [ {| filename := JStr "a.pdf"; status := success;
       data := Some {[ "Name" := JStr "Budi" ]}; error_message := None |};
    {| filename := JStr "b.pdf"; status := error; data := None;
       error_message := Some "unreadable" |};
    {| filename := JStr "c.pdf"; status := success;
       data := Some {[ "Name" := JStr "Sari" ]}; error_message := None |} ].

(** A response whose counters disagree: one file submitted, two reported
    processed and one failed. *)
Definition response_example : ApiResponse :=
  {| api_success := true; timestamp := "2025-01-01T00:00:00";
     total_files := 1; processed_files := 2; failed_files := Some 1;
     results := None;
     extraction_data := Some [ {[ "Name" := JStr "Budi" ]} ];
     renamed_files := None; download_links := None; file_info := None |}.

(** A page with one selected file, ready to submit. *)
Definition ready_example (rename : bool) : PageState :=
  {| files := Some [ {| file_name := "a.pdf"; file_size := 1024;
                        file_type := "application/pdf" |} ];
     loading := false; st_results := None; apiStatus := online;
     documentType := "SKTT"; useNameForRename := true;
     usePassportForRename := true; enableFileRename := rename;
     searchQuery := ""; activeTab := "upload" |}.

(** The rows of a batch with one record that mentions Jakarta. *)
Definition rows_example : list (gmap string value) :=
  getTableData
    (state_example "EVLN"
       [ {| filename := JStr "a.pdf"; status := success;
            data := Some {[ "Name" := JStr "Budi";
                            "Place of Birth" := JStr "JAKARTA" ]};
            error_message := None |};
         {| filename := JStr "b.pdf"; status := success;
            data := Some {[ "Name" := JStr "Sari";
                            "Place of Birth" := JStr "Bandung" ]};
            error_message := None |} ]).




(** A page holding a batch that came with both download links. *)
Definition linked_example : PageState :=
  {| files := None; loading := false;
     st_results :=
       Some {| api_success := true; timestamp := "2025-01-01T00:00:00";
               total_files := 1; processed_files := 1; failed_files := None;
               results := None; extraction_data := None;
               renamed_files := None;
               download_links :=
                 Some {| excel := Some "/download/hasil.xlsx";
                         zip := Some "/download/renamed.zip" |};
               file_info := None |};
     apiStatus := online; documentType := "SKTT";
     useNameForRename := true; usePassportForRename := true;
     enableFileRename := true; searchQuery := ""; activeTab := "export" |}.

(** A server error whose body happens to mention 404. *)
Definition server_error_example : FetchOutcome :=
  Responded {| resp_status := 500; resp_statusText := "Internal Server Error";
               resp_text := inr "upstream said 404"; resp_blob_size := inr 0 |}.

(** ** The remaining handlers of the page *)

(** [setFiles(fs); setResults(null)] *)
Definition selectFiles (st : PageState) (fs : option (list File)) : PageState :=
  {| files := fs;
     loading := loading st;
     st_results := None;
     apiStatus := apiStatus st;
     documentType := documentType st;
     useNameForRename := useNameForRename st;
     usePassportForRename := usePassportForRename st;
     enableFileRename := enableFileRename st;
     searchQuery := searchQuery st;
     activeTab := activeTab st |}.

(** [handleFileChange]: [e.target.files] is a file list or [null]. *)
Definition handleFileChange (st : PageState) (targetFiles : option (list File))
  : PageState :=
  selectFiles st targetFiles.

(** The page state together with the drag flag of the drop zone. *)
Record UiState := {
  page : PageState;
  isDragging : bool;
}.

(** [handleDrop]: the flag is cleared; a drop without files changes nothing
    else. *)
Definition handleDrop (ui : UiState) (droppedFiles : list File) : UiState :=
  {| page := match droppedFiles with
             | [] => page ui
             | _ :: _ => selectFiles (page ui) (Some droppedFiles)
             end;
     isDragging := false |}.

Definition setApiStatus (st : PageState) (s : ApiStatus) : PageState :=
  {| files := files st;
     loading := loading st;
     st_results := st_results st;
     apiStatus := s;
     documentType := documentType st;
     useNameForRename := useNameForRename st;
     usePassportForRename := usePassportForRename st;
     enableFileRename := enableFileRename st;
     searchQuery := searchQuery st;
     activeTab := activeTab st |}.

(** [checkApiStatus], given how the [fetch] of [/health] settles (a
    rejection includes the abort after five seconds). *)
Definition checkApiStatus (st : PageState) (o : FetchOutcome) : PageState :=
  match o with
  | Responded r => if resp_ok r then setApiStatus st online else setApiStatus st offline
  | Rejected _ => setApiStatus st offline
  end.

(** The [disabled] attribute of the submit button. *)
Definition submitDisabled (st : PageState) : bool :=
  loading st
  || match files st with None | Some [] => true | Some (_ :: _) => false end
  || match apiStatus st with offline => true | _ => false end.

Inductive FormValue :=
| FilePart (f : File)
| TextPart (text : string).

(** The POST that [handleSubmit] sends: the path appended to [API_URL] and
    the entries of the form, in the order they are appended. *)
Record Request := {
  endpoint : string;
  formData : list (string * FormValue);
}.

(** [b.toString()] *)
Definition boolToString (b : bool) : string :=
  if b then "true" else "false".

(** The request built by [handleSubmit]; [None] when one of its two guards
    returns before any request is made. *)
Definition submitRequest (st : PageState) : option Request :=
  match files st with
  | None | Some [] => None
  | Some fs =>
      match apiStatus st with
      | offline => None
      | _ =>
          let formData :=
            (map (fun file => ("files", FilePart file)) fs
               ++ [("document_type", TextPart (documentType st))])%list in
          let endpoint := "/extract" in
          if enableFileRename st then
            Some {| endpoint := "/extract-with-rename";
                    formData :=
                      (formData
                         ++ [("use_name_for_rename",
                               TextPart (boolToString (useNameForRename st)));
                             ("use_passport_for_rename",
                               TextPart (boolToString (usePassportForRename st)))])%list |}
          else
            Some {| endpoint := "/extract-batch"; formData := formData |}
      end
  end.

(** The Excel card of the export tab is rendered:
    [results && results.download_links?.excel]. *)
Definition excelCardVisible (st : PageState) : bool :=
  match st_results st with
  | Some res =>
      match download_links res with
      | Some links =>
          match excel links with
          | Some path => negb (String.eqb path "")
          | None => false
          end
      | None => false
      end
  | None => false
  end.

(** ** Readings of the export *)

(** The own keys of every export record of a document type. *)
Definition exportKeys (documentType : string) : list string :=
  ("No" :: "Filename" :: "Document Type" :: map fst (exportProfile documentType)).

(** The object literal of an item hits the [split] of a combined birth
    field that has no such method (anything but a string, null or an absent
    field): the export schema has the two birth columns and one of the
    dedicated fields is falsy. *)
Definition exportThrows (documentType : string) (d : ExtractedData) : bool :=
  negb (String.eqb documentType "DKPTKA")
  && negb (splittable d)
  && (negb (truthy d.["Place of Birth"]) || negb (truthy d.["Date of Birth"])).

(** The attempt failed with a message that contains "404" or "Network",
    as a test. *)
Definition retryCauseb (a : Artifact) (o : FetchOutcome) : bool :=
  match failureMessage a o with
  | Some m => retryable m
  | None => false
  end.

(** * Properties *)

(** ** Facts about the JavaScript primitives *)

Section JsFacts.

Lemma orElse_assoc (a b c : Result value) : a ||| b ||| c = a ||| (b ||| c).
Proof.
  destruct a as [v|e]; simpl; [|done].
  destruct (truthy v) eqn:Hv; simpl; by rewrite ?Hv.
Qed.

Lemma orElse_truthy (v : value) (b : Result value) :
  truthy v = true -> Ok v ||| b = Ok v.
Proof. intros Hv. simpl. by rewrite Hv. Qed.

Lemma orElse_falsy (v : value) (b : Result value) :
  truthy v = false -> Ok v ||| b = b.
Proof. intros Hv. simpl. by rewrite Hv. Qed.


Lemma get_present (o : gmap string value) k v : o !! k = Some v -> o.[k] = v.
Proof. unfold get. by intros ->. Qed.

Lemma truthy_present (o : gmap string value) k :
  truthy o.[k] = true -> o !! k = Some o.[k].
Proof. unfold get. by destruct (o !! k). Qed.

End JsFacts.

(** ** The export literals and the table of rules agree *)

Section Profile.

Lemma exportFields_profile documentType d :
  exportFields documentType d
  = map (fun rule => (rule.1, evalChain d rule.2)) (exportProfile documentType).
Proof.
  unfold exportFields, exportProfile.
  destruct (String.eqb documentType "DKPTKA");
    cbn [map fst snd profile_DKPTKA profile_generic evalChain evalSource];
    unfold fields_DKPTKA, fields_generic;
    by rewrite ?orElse_assoc.
Qed.



Lemma evalChain_own_key d column chain :
  ownKeyFirst column chain = true ->
  truthy d.[column] = true ->
  evalChain d chain = Ok d.[column].
Proof.
  destruct chain as [|[k| |] rest]; simpl; try done.
  intros ->%String.eqb_eq Hv. by rewrite Hv.
Qed.

Lemma evalChain_splittable d rule documentType :
  rule ∈ exportProfile documentType ->
  splittable d = true ->
  exists v, evalChain d rule.2 = Ok v.
Proof.
  unfold exportProfile, splittable. intros Hin Hs.
  destruct (String.eqb documentType "DKPTKA");
    unfold profile_DKPTKA, profile_generic in Hin;
    repeat (apply elem_of_cons in Hin as [->|Hin]);
    try (by apply elem_of_nil in Hin);
    cbn [snd evalChain evalSource];
    destruct (d.["Place & Date of Birth"]) eqn:Hb; try done;
    repeat (match goal with
            | |- context [Ok ?v ||| _] => destruct (truthy v) eqn:?;
                [rewrite orElse_truthy by done | rewrite orElse_falsy by done]
            end);
    try (by eexists);
    simpl; destruct (split "," _ !! _); simpl;
    repeat (case_match; simpl); by eexists.
Qed.

Lemma evalLiteral_field props rec k r :
  evalLiteral props = Ok rec ->
  NoDup props.*1 ->
  (k, r) ∈ props ->
  r = Ok (field rec k).
Proof.
  revert rec. induction props as [|[k' [v|e]] props IH]; intros rec Hev Hnd Hin.
  - by apply elem_of_nil in Hin.
  - simpl in Hev. destruct (evalLiteral props) as [rec'|] eqn:Hrec; [|done].
    simpl in Hev. injection Hev as <-.
    apply NoDup_cons in Hnd as [Hfresh Hnd].
    apply elem_of_cons in Hin as [Heq|Hin].
    + injection Heq as -> ->. simpl. by rewrite String.eqb_refl.
    + simpl. destruct (String.eqb k' k) eqn:Hk.
      * apply String.eqb_eq in Hk as ->. exfalso. apply Hfresh.
        apply list_elem_of_fmap. by exists (k, r).
      * by apply IH.
  - done.
Qed.

Lemma evalLiteral_total props :
  Forall (fun p => exists v, p.2 = Ok v) props ->
  exists rec, evalLiteral props = Ok rec.
Proof.
  induction 1 as [|[k r] props [v Hv] _ [rec IH]]; [by eexists|].
  simpl in Hv. subst r. simpl. rewrite IH. by eexists.
Qed.

Lemma exportKeys_NoDup documentType index result :
  NoDup (fst <$> (baseData index result documentType
                    ++ exportFields documentType (default ∅ (data result)))%list).
Proof.
  rewrite exportFields_profile, fmap_app, <-list_fmap_compose.
  unfold exportProfile, baseData.
  destruct (String.eqb documentType "DKPTKA");
    apply (bool_decide_unpack _); by vm_compute.
Qed.

Lemma exportRecord_field documentType index result rec column chain :
  exportRecord documentType index result = Ok rec ->
  (column, chain) ∈ exportProfile documentType ->
  evalChain (default ∅ (data result)) chain = Ok (field rec column).
Proof.
  intros Hrec Hin. unfold exportRecord in Hrec.
  eapply evalLiteral_field; [exact Hrec | apply exportKeys_NoDup |].
  apply elem_of_app. right. rewrite exportFields_profile.
  apply list_elem_of_fmap. by exists (column, chain).
Qed.

Lemma exportRecord_total documentType index result :
  splittable (default ∅ (data result)) = true ->
  exists rec, exportRecord documentType index result = Ok rec.
Proof.
  intros Hs. apply evalLiteral_total, Forall_app. split.
  - unfold baseData. repeat constructor; simpl; try by eexists.
    destruct (truthy _); by eexists.
  - rewrite exportFields_profile. apply Forall_fmap, Forall_forall.
    intros rule Hrule. simpl. by eapply evalChain_splittable.
Qed.

End Profile.

(** ** Field resolution: priority and placeholders *)

Section Resolution.

Lemma tableRow_data index result column v :
  default ∅ (data result) !! column = Some v ->
  (tableRow index result).[column] = v.
Proof.
  intros Hv. apply get_present. unfold tableRow.
  by apply lookup_union_Some_l.
Qed.

Lemma columnsOf_not_reserved documentType column :
  column ∈ columnsOf documentType -> column ≠ "index" /\ column ≠ "filename".
Proof.
  assert (forall l : list string,
             Forall (fun c => c ≠ "index" /\ c ≠ "filename") l ->
             column ∈ l -> column ≠ "index" /\ column ≠ "filename") as Hall.
  { intros l Hl Hin. by apply (proj1 (Forall_forall _ _) Hl). }
  unfold columnsOf. repeat case_match; apply Hall;
    apply (bool_decide_unpack _); by vm_compute.
Qed.


Lemma ownKeyFirst_all_but_Gender documentType rule :
  rule ∈ exportProfile documentType ->
  ownKeyFirst rule.1 rule.2 = true \/ rule.1 = "Gender".
Proof.
  assert (forall l : list (string * list Source),
             Forall (fun r => ownKeyFirst r.1 r.2 = true \/ r.1 = "Gender") l ->
             rule ∈ l -> ownKeyFirst rule.1 rule.2 = true \/ rule.1 = "Gender")
    as Hall.
  { intros l Hl Hin. by apply (proj1 (Forall_forall _ _) Hl). }
  unfold exportProfile. destruct (String.eqb documentType "DKPTKA");
    apply Hall; apply (bool_decide_unpack _); by vm_compute.
Qed.

(** The one export column whose rule does not start with its own key: a
    record holding both "Gender" and "Jenis Kelamin" shows the former in the
    table and exports the latter. *)
Remark Gender_table_and_export_differ :
  let item := {| filename := JStr "a.pdf"; status := success;
                 data := Some {[ "Gender" := JStr "Male";
                                 "Jenis Kelamin" := JStr "Laki-laki" ]};
                 error_message := None |} in
  displayCell (tableRow 0 item) "Gender" = JStr "Male"
  /\ exists rec, exportRecord "SKTT" 0 item = Ok rec
                 /\ field rec "Gender" = JStr "Laki-laki".
Proof.
  intros item. split; [by vm_compute|].
  eexists. split; by vm_compute.
Qed.

(** C1, as the code has it. For every document type and every export
    column whose rule tries the column's own key first, a record whose value
    under that key is truthy (for a string: non-empty) resolves the column to
    that value, whatever its fallback keys hold: the table cell shows it, the
    column's export expression evaluates to it, and every export record
    built from the item carries it. *)
Theorem C1_primary_wins_when_truthy documentType index result column chain :
  let d := default ∅ (data result) in
  (column, chain) ∈ exportProfile documentType ->
  ownKeyFirst column chain = true ->
  truthy d.[column] = true ->
  displayCell (tableRow index result) column = d.[column]
  /\ evalChain d chain = Ok d.[column]
  /\ (column, Ok d.[column]) ∈ exportFields documentType d
  /\ forall rec, exportRecord documentType index result = Ok rec ->
                 field rec column = d.[column].
Proof.
  intros d Hin Hown Hv.
  assert (evalChain d chain = Ok d.[column]) as Hchain
    by by apply evalChain_own_key.
  repeat split.
  - unfold displayCell, orValue.
    rewrite (tableRow_data index result column d.[column])
      by by apply truthy_present.
    by rewrite Hv.
  - done.
  - rewrite exportFields_profile. apply list_elem_of_fmap.
    exists (column, chain). simpl. by rewrite Hchain.
  - intros rec Hrec.
    pose proof (exportRecord_field _ _ _ _ _ _ Hrec Hin) as Hf.
    fold d in Hf. rewrite Hchain in Hf. by injection Hf.
Qed.

(** The example of C1: under EVLN a record with "Passport No" = "A123" and
    "Nomor Paspor" = "B456" shows and exports "A123". *)
Lemma C1_example_EVLN :
  let item := {| filename := JStr "a.pdf"; status := success;
                 data := Some {[ "Passport No" := JStr "A123";
                                 "Nomor Paspor" := JStr "B456" ]};
                 error_message := None |} in
  displayCell (tableRow 0 item) "Passport No" = JStr "A123"
  /\ exists rec, exportRecord "EVLN" 0 item = Ok rec
                 /\ field rec "Passport No" = JStr "A123".
Proof.
  intros item.
  destruct (C1_primary_wins_when_truthy "EVLN" 0 item "Passport No"
              [Field "Passport No"; Field "Passport Number"; Field "Nomor Paspor"])
    as (Hcell & _ & _ & Hrec).
  - apply (bool_decide_unpack _). vm_compute. reflexivity.
  - reflexivity.
  - vm_compute. reflexivity.
  - split; [exact Hcell|].
    destruct (exportRecord "EVLN" 0 item) as [rec|e] eqn:Hex.
    + exists rec. split; [reflexivity|]. by apply Hrec.
    + vm_compute in Hex. discriminate Hex.
Defined.

(** C1 as stated fails: a record that contains both the primary key
    "Passport No" (holding the empty string) and the fallback key
    "Nomor Paspor" exports the fallback's value under EVLN, and its table
    cell shows the placeholder. *)
Lemma C1_counterexample_empty_primary :
  let d : ExtractedData := {[ "Passport No" := JStr ""; "Nomor Paspor" := JStr "B456" ]} in
  let item := {| filename := JStr "a.pdf"; status := success; data := Some d;
                 error_message := None |} in
  d !! "Passport No" = Some (JStr "")
  /\ d !! "Nomor Paspor" = Some (JStr "B456")
  /\ "Nomor Paspor" ∈ fallbackKeys "Passport No"
       [Field "Passport No"; Field "Passport Number"; Field "Nomor Paspor"]
  /\ (exists rec, exportRecord "EVLN" 0 item = Ok rec
                  /\ field rec "Passport No" = JStr "B456"
                  /\ field rec "Passport No" ≠ d.["Passport No"])
  /\ displayCell (tableRow 0 item) "Passport No" = JStr "-".
Proof.
  intros d item. repeat split.
  - apply (bool_decide_unpack _). by vm_compute.
  - eexists. split; [by vm_compute|]. split; [by vm_compute|].
    vm_compute. discriminate.
Qed.

End Resolution.

(** ** Column profiles *)

Section Columns.

Lemma getTableColumns_cases st :
  getTableColumns st
  = if existsb successful (heldItems st) then columnsOf (documentType st) else [].
Proof.
  unfold getTableColumns, heldItems.
  destruct (st_results st) as [res|]; [|done].
  destruct (results res) as [[|r items]|]; simpl; try done.
  destruct (successful r); simpl; [done|].
  induction items as [|r' items IH]; simpl; [done|].
  by destruct (successful r').
Qed.

Lemma columnsOf_nonempty documentType : columnsOf documentType ≠ [].
Proof. unfold columnsOf. by repeat case_match. Qed.

Lemma columnsOf_unknown documentType :
  documentType ∉ knownTags -> columnsOf documentType = columns_default.
Proof.
  intros Hun. unfold columnsOf.
  repeat (case_match; [exfalso; apply Hun;
    match goal with H : String.eqb _ _ = true |- _ =>
      apply String.eqb_eq in H as -> end;
    apply (bool_decide_unpack _); by vm_compute|]).
  done.
Qed.

(** C3, as the code has it. [getTableColumns] is a total function of the
    state: it returns the empty list when the batch holds no successful
    item with data, and otherwise the column list selected by the tag alone,
    which is non-empty and duplicate-free for every tag and is the generic
    profile for every tag outside the six known ones. *)
Theorem C3_columns_by_tag_given_a_success st :
  getTableColumns st
  = (if existsb successful (heldItems st) then columnsOf (documentType st) else [])
  /\ columnsOf (documentType st) ≠ []
  /\ NoDup (columnsOf (documentType st))
  /\ (documentType st ∉ knownTags ->
      columnsOf (documentType st)
      = [ "Name"; "Place of Birth"; "Date of Birth"; "Passport No";
          "Passport Expiry"; "Date Issue"; "Document Type" ]).
Proof.
  split; [apply getTableColumns_cases|].
  split; [apply columnsOf_nonempty|].
  split; [|apply columnsOf_unknown].
  unfold columnsOf. repeat case_match; apply (bool_decide_unpack _); by vm_compute.
Qed.

Lemma C3_example_unknown_tag :
  getTableColumns
    (state_example "KITAS"
       [ {| filename := JStr "a.pdf"; status := success;
            data := Some {[ "Name" := JStr "Budi" ]}; error_message := None |} ])
  = [ "Name"; "Place of Birth"; "Date of Birth"; "Passport No";
      "Passport Expiry"; "Date Issue"; "Document Type" ].
Proof.
  set (st := state_example _ _).
  destruct (C3_columns_by_tag_given_a_success st) as (Hcols & _ & _ & Hdefault).
  rewrite Hcols. apply Hdefault.
  apply (bool_decide_unpack _). by vm_compute.
Defined.

(** C3 as stated fails: with the recognised tag EVLN and a batch whose only
    item failed, the column list is empty. *)
Lemma C3_counterexample_no_success :
  getTableColumns
    (state_example "EVLN"
       [ {| filename := JStr "a.pdf"; status := error; data := None;
            error_message := Some "unreadable" |} ])
  = [].
Proof. reflexivity. Qed.

(** C10. Whatever batch is held, the tags ITAS and ITK select the same
    column list, and the rendered table body (every row's cells, for every
    record of the batch) is the same under both. *)
Theorem C10_ITAS_ITK_same_profile st :
  getTableColumns (setDocumentType st "ITAS") = getTableColumns (setDocumentType st "ITK")
  /\ tableBody (setDocumentType st "ITAS") = tableBody (setDocumentType st "ITK")
  /\ forall row : gmap string value,
       map (displayCell row) (columnsOf "ITAS") = map (displayCell row) (columnsOf "ITK").
Proof.
  assert (getTableColumns (setDocumentType st "ITAS")
          = getTableColumns (setDocumentType st "ITK")) as Hcols.
  { by rewrite !getTableColumns_cases. }
  split; [done|]. split; [|done].
  unfold tableBody. by rewrite Hcols.
Qed.

End Columns.

(** ** The export: record count and the empty batch *)

Section CsvExport.

Lemma mapResult_length {A B} (f : nat -> A -> Result B) index l ys :
  mapResult f index l = Ok ys -> length ys = length l.
Proof.
  revert index ys. induction l as [|x l IH]; intros index ys; simpl.
  - by intros [= <-].
  - destruct (f index x) as [y|]; simpl; [|done].
    destruct (mapResult f (S index) l) as [ys'|] eqn:Hys; simpl; [|done].
    intros [= <-]. simpl. f_equal. by eapply IH.
Qed.

Lemma mapResult_total {A B} (f : nat -> A -> Result B) index l :
  Forall (fun x => forall i, exists y, f i x = Ok y) l ->
  exists ys, mapResult f index l = Ok ys.
Proof.
  intros Hl. revert index. induction Hl as [|x l Hx _ IH]; intros index; simpl.
  - by eexists.
  - destruct (Hx index) as [y ->]. destruct (IH (S index)) as [ys ->]. by eexists.
Qed.

(** C6, as the code has it. Whenever the export records are built, there
    is one per item whose status is success and that carries data; they are
    built for every batch in which the combined birth field of every item
    is a string, null or absent. *)
Theorem C6_one_record_per_successful_item_with_data documentType items :
  (forall recs, buildExportRecords documentType items = Ok recs ->
                length recs = length (List.filter successful items))
  /\ (Forall (fun r => splittable (default ∅ (data r)) = true) items ->
      exists recs, buildExportRecords documentType items = Ok recs
                   /\ length recs = length (List.filter successful items)).
Proof.
  split.
  - intros recs. apply mapResult_length.
  - intros Hs. destruct (mapResult_total (exportRecord documentType) 0
                           (List.filter successful items)) as [recs Hrecs].
    + apply Forall_forall. intros r Hr i.
      apply list_elem_of_In, filter_In in Hr as [Hr _].
      apply list_elem_of_In in Hr.
      apply exportRecord_total. by apply (proj1 (Forall_forall _ _) Hs).
    + exists recs. split; [done|]. by eapply mapResult_length.
Qed.

Lemma C6_example_two_of_three :
  exists recs,
    buildExportRecords "SKTT" batch_example = Ok recs /\ length recs = 2%nat.
Proof.
  apply (proj2 (C6_one_record_per_successful_item_with_data "SKTT" batch_example)).
  apply (bool_decide_unpack _). by vm_compute.
Defined.

(** C6 as stated fails: an item whose status is success but which carries
    no data is dropped, so the batch below has one success item and no
    export record. *)
Lemma C6_counterexample_success_without_data :
  let items := [ {| filename := JStr "a.pdf"; status := success; data := None;
                    error_message := None |} ] in
  length (List.filter statusIsSuccess items) = 1%nat
  /\ buildExportRecords "SKTT" items = Ok [].
Proof. by split. Qed.

End CsvExport.

(** ** [handleSubmit]: the counters of the held batch *)

Section Submit.

Lemma acceptedResults_counters rename fs d :
  total_files (acceptedResults rename fs d) = total_files d
  /\ processed_files (acceptedResults rename fs d) = processed_files d
  /\ failed_files (acceptedResults rename fs d) = failed_files d.
Proof. unfold acceptedResults. by destruct rename, (extraction_data d). Qed.

(** C9, as the code has it. The page checks no relation between the
    counters of a response; what it does is keep them: after a submission
    that returned JSON, the held batch is the response with at most its item
    list rebuilt, its three counters are those of the response, and so it
    satisfies [processed + failed <= total] exactly when the response did. *)
Theorem C9_conversion_keeps_counters st d f fs :
  files st = Some (f :: fs) ->
  apiStatus st ≠ offline ->
  exists held,
    st_results (handleSubmit st (SubmitJson d)) = Some held
    /\ held = acceptedResults (enableFileRename st) (f :: fs) d
    /\ total_files held = total_files d
    /\ processed_files held = processed_files d
    /\ failed_files held = failed_files d
    /\ (countersConsistent d <-> countersConsistent held).
Proof.
  intros Hfiles Hon.
  exists (acceptedResults (enableFileRename st) (f :: fs) d).
  destruct (acceptedResults_counters (enableFileRename st) (f :: fs) d)
    as (Htotal & Hprocessed & Hfailed).
  repeat split; try done.
  - unfold handleSubmit. rewrite Hfiles. by destruct (apiStatus st).
  - unfold countersConsistent. by rewrite Htotal, Hprocessed, Hfailed.
  - unfold countersConsistent. by rewrite Htotal, Hprocessed, Hfailed.
Qed.

Lemma C9_example_rename_path :
  exists held,
    st_results (handleSubmit (ready_example true) (SubmitJson response_example))
      = Some held
    /\ total_files held = 1 /\ processed_files held = 2
    /\ failed_files held = Some 1.
Proof.
  destruct (C9_conversion_keeps_counters (ready_example true) response_example
              {| file_name := "a.pdf"; file_size := 1024;
                 file_type := "application/pdf" |} [])
    as (held & Hheld & _ & Htotal & Hprocessed & Hfailed & _).
  - reflexivity.
  - discriminate.
  - exists held. by rewrite Htotal, Hprocessed, Hfailed.
Defined.

(** C9 as stated fails: a response reporting two processed and one failed
    file out of one is accepted as it comes, so the held batch breaks
    [processed + failed <= total]. *)
Lemma C9_counterexample_unchecked_counters :
  exists held,
    st_results (handleSubmit (ready_example false) (SubmitJson response_example))
      = Some held
    /\ ~ countersConsistent held.
Proof.
  eexists. split; [reflexivity|].
  unfold countersConsistent. simpl. lia.
Qed.

End Submit.

(** ** The search filter *)

Section Search.

Lemma string_app_cons c (s t : string) : String c s +:+ t = String c (s +:+ t).
Proof. reflexivity. Qed.

Lemma string_app_nil (t : string) : "" +:+ t = t.
Proof. reflexivity. Qed.

Lemma prefix_spec q s : String.prefix q s = true <-> exists post, s = q +:+ post.
Proof.
  revert s. induction q as [|c q IH]; intros s.
  - split; [by exists s|]. by destruct s.
  - destruct s as [|c' s]; simpl.
    + split; [done|]. by intros [post ?].
    + destruct (ascii_dec c c') as [->|Hne].
      * rewrite IH. split; intros [post Hpost]; exists post.
        -- by rewrite string_app_cons, <-Hpost.
        -- rewrite string_app_cons in Hpost. by injection Hpost.
      * split; [done|]. intros [post Hpost].
        rewrite string_app_cons in Hpost. by injection Hpost.
Qed.

Lemma includes_nil q : includes "" q = String.prefix q "" || false.
Proof. reflexivity. Qed.

Lemma includes_cons c s q :
  includes (String c s) q = String.prefix q (String c s) || includes s q.
Proof. reflexivity. Qed.

Lemma includes_spec s q :
  includes s q = true <-> exists pre post, s = pre +:+ q +:+ post.
Proof.
  induction s as [|c s IH].
  - rewrite includes_nil, orb_false_r, prefix_spec. split.
    + intros [post Hpost]. by exists "", post.
    + intros ([|? pre] & post & Hpost); [by exists post|done].
  - rewrite includes_cons, orb_true_iff, prefix_spec, IH. split.
    + intros [[post Hpost]|(pre & post & Hpost)].
      * by exists "", post.
      * exists (String c pre), post. by rewrite string_app_cons, <-Hpost.
    + intros ([|c' pre] & post & Hpost).
      * left. by exists post.
      * right. rewrite string_app_cons in Hpost. injection Hpost as -> Hs.
        by exists pre, post.
Qed.

Lemma toLowerCase_app a b : toLowerCase (a +:+ b) = toLowerCase a +:+ toLowerCase b.
Proof. induction a as [|c a IH]; [done|]. rewrite string_app_cons. simpl. by rewrite IH, string_app_cons. Qed.


Lemma filter_all {A} (f : A -> bool) l : (forall x, f x = true) -> List.filter f l = l.
Proof. intros Hf. induction l as [|x l IH]; simpl; [done|]. by rewrite Hf, IH. Qed.


End Search.

(** ** The retrying downloads *)

Section Retry.
Context (API_URL : string) (net : nat -> FetchOutcome) (a : Artifact)
        (held : option ApiResponse).

Lemma fetchAttempts_app t1 t2 :
  fetchAttempts (t1 ++ t2) = (fetchAttempts t1 + fetchAttempts t2)%nat.
Proof. unfold fetchAttempts. by rewrite List.filter_app, length_app. Qed.

Lemma retryable_404 r errorText :
  resp_status r = 404 -> retryable (httpMessage r errorText) = true.
Proof.
  intros Hs. unfold retryable, httpMessage. rewrite Hs.
  apply orb_true_iff. left. apply includes_spec.
  by exists "HTTP ", (": " +:+ (if String.eqb errorText "" then resp_statusText r else errorText)).
Qed.

Lemma download_step rc k :
  download API_URL net a held rc k
  = match activation API_URL a held rc (net k) with
    | Finished trace => trace
    | Again trace => (trace ++ download API_URL net a held (plusOne rc) (S k))%list
    end.
Proof.
  funelim (download API_URL net a held rc k);
    by match goal with E : activation _ _ _ _ _ = _ |- _ => rewrite E end.
Qed.

Lemma activation_unlinked rc o :
  linked a held = false ->
  exists d, activation API_URL a held rc o = Finished [ToastError "Error" d].
Proof.
  unfold linked, activation. intros Hl.
  destruct held as [res|]; [|by eexists].
  destruct (linkOf a res) as [path|]; [|by eexists].
  destruct (String.eqb path ""); [by eexists|done].
Qed.

Lemma activation_linked rc o :
  linked a held = true ->
  exists url name,
    activation API_URL a held rc o
    = prepend (Fetch url (timeoutOf a))
        match tryBody a name rc o with
        | inr s => s
        | inl e => catchBlock a rc e
        end.
Proof.
  unfold linked, activation. intros Hl.
  destruct held as [res|]; [|done].
  destruct (linkOf a res) as [path|]; [|done].
  destruct (String.eqb path ""); [done|]. by eexists _, _.
Qed.

Lemma catchBlock_finished rc e t :
  catchBlock a rc e = Finished t ->
  exists d, t = [ToastError (failedTitle a) d].
Proof.
  unfold catchBlock. destruct (belowTwo rc && retryable (errorMessageOf e)); [done|].
  intros [= <-]. by eexists.
Qed.

Lemma catchBlock_again rc e t :
  catchBlock a rc e = Again t ->
  belowTwo rc = true /\ retryable (errorMessageOf e) = true
  /\ exists d, t = [ToastError (retryTitle a) d; Sleep 2000].
Proof.
  unfold catchBlock.
  destruct (belowTwo rc), (retryable (errorMessageOf e)); simpl; try done.
  intros [= <-]. repeat split. by eexists.
Qed.

(** What one attempt leaves in the trace after its [Fetch] event. *)
Lemma attempt_finished name rc o t :
  match tryBody a name rc o with
  | inr s => s
  | inl e => catchBlock a rc e
  end = Finished t ->
  List.filter isFetch t = [] /\ List.filter isSleep t = []
  /\ exists e, last t = Some e /\ isTerminalToast a e = true.
Proof.
  destruct (tryBody a name rc o) as [e|s] eqn:Hbody.
  - intros [d ->]%catchBlock_finished. repeat split.
    eexists. split; [done|]. simpl. by rewrite String.eqb_refl, orb_true_r.
  - intros ->. unfold tryBody in Hbody.
    repeat (case_match; simplify_eq/=).
    repeat split. eexists. split; [done|]. simpl. by rewrite String.eqb_refl.
Qed.

Lemma attempt_again name rc o t :
  match tryBody a name rc o with
  | inr s => s
  | inl e => catchBlock a rc e
  end = Again t ->
  belowTwo rc = true /\ retryCause a o
  /\ List.filter isFetch t = []
  /\ exists ms, List.filter isSleep t = [Sleep ms] /\ (ms = 3000 \/ ms = 2000).
Proof.
  destruct (tryBody a name rc o) as [e|s] eqn:Hbody.
  - intros (Hlt & Hre & d & ->)%catchBlock_again.
    split; [done|]. split.
    + exists (errorMessageOf e). split; [|done].
      unfold tryBody, failureMessage in *.
      repeat (case_match; simplify_eq/=); done.
    + split; [done|]. exists 2000. by split; [|right].
  - intros ->. unfold tryBody in Hbody.
    repeat (case_match; simplify_eq/=).
    match goal with H : _ && _ = true |- _ => apply andb_true_iff in H as [Hs Hlt] end.
    apply Z.eqb_eq in Hs.
    split; [done|]. split.
    + eexists. split; [|by apply retryable_404].
      unfold failureMessage. by repeat (case_match; simplify_eq/=).
    + split; [done|]. exists 3000. by split; [|left].
Qed.

Lemma sleepOK_filter t :
  Forall sleepOK (List.filter isSleep t) -> Forall sleepOK t.
Proof.
  induction t as [|e t IH]; simpl; [done|].
  destruct e; simpl; intros H; try (constructor; [by intros ms [=]|by apply IH]).
  apply Forall_cons in H as [? ?]. constructor; [done|by apply IH].
Qed.

Lemma budget_plusOne rc :
  belowTwo rc = true -> (budget (plusOne rc) < budget rc)%nat.
Proof.
  destruct rc as [n|]; simpl; [|done].
  intros H%Nat.ltb_lt. lia.
Qed.

Lemma download_linked rc k :
  linked a held = true -> traceInv a net rc k (download API_URL net a held rc k).
Proof.
  intros Hl. remember (budget rc) as b eqn:Hb. revert rc k Hb.
  induction b as [b IH] using lt_wf_ind. intros rc k ->.
  rewrite download_step.
  destruct (activation_linked rc (net k) Hl) as (url & name & ->).
  destruct (match tryBody a name rc (net k) with
            | inr s => s
            | inl e => catchBlock a rc e
            end) as [t|t] eqn:Hatt; simpl.
  - apply attempt_finished in Hatt as (Hf & Hs & ev & Hlast & Hterm).
    unfold traceInv, fetchAttempts. simpl. rewrite Hf, Hs. simpl.
    repeat split; try lia.
    + constructor; [by intros ms [=]|]. apply sleepOK_filter. by rewrite Hs.
    + exists ev. split; [|done]. by destruct t.
  - apply attempt_again in Hatt as (Hlt & Hcause & Hf & ms & Hs & Hms).
    destruct (IH _ (budget_plusOne rc Hlt) (plusOne rc) (S k) eq_refl)
      as ((Hlo & Hhi) & Hretry & Hsleep & Hcount & ev & Hlast & Hterm).
    pose proof (budget_plusOne rc Hlt) as Hbudget.
    set (rest := download API_URL net a held (plusOne rc) (S k)) in *.
    assert (fetchAttempts (Fetch url (timeoutOf a) :: t ++ rest)
            = S (fetchAttempts rest)) as Hn.
    { change (Fetch url (timeoutOf a) :: t ++ rest)
        with ((Fetch url (timeoutOf a) :: t) ++ rest)%list.
      rewrite fetchAttempts_app. unfold fetchAttempts at 1. simpl. by rewrite Hf. }
    unfold traceInv. rewrite Hn. repeat split; try lia.
    + intros [|j] Hj.
      * by rewrite Nat.add_0_r.
      * replace (k + S j)%nat with (S k + j)%nat by lia. apply Hretry. lia.
    + constructor; [by intros ? [=]|]. apply Forall_app. split; [|done].
      apply sleepOK_filter. rewrite Hs. constructor; [|done].
      by intros ? [= <-].
    + simpl. rewrite List.filter_app, length_app, Hs. simpl. lia.
    + exists ev. split; [|done].
      change (Fetch url (timeoutOf a) :: t ++ rest)
        with ((Fetch url (timeoutOf a) :: t) ++ rest)%list.
      rewrite last_app, Hlast. done.
Qed.

Lemma download_unlinked rc k :
  linked a held = false ->
  exists d, download API_URL net a held rc k = [ToastError "Error" d].
Proof.
  intros Hl. rewrite download_step.
  destruct (activation_unlinked rc (net k) Hl) as [d ->]. by exists d.
Qed.


End Retry.

(** The buttons pass the click event as [retryCount]: compared with 2 it is
    not a number, so a download started from a button fetches at most
    once. *)
Remark click_handler_never_retries API_URL net a held :
  (fetchAttempts (download API_URL net a held NotNumeric 0) <= 1)%nat.
Proof.
  destruct (linked a held) eqn:Hl.
  - by destruct (download_linked API_URL net a held NotNumeric 0%nat Hl)
      as ((_ & Hhi) & _).
  - destruct (download_unlinked API_URL net a held NotNumeric 0%nat Hl) as [d ->].
    unfold fetchAttempts. simpl. lia.
Qed.

(** * Further properties of the page *)

(** ** More about the export records *)

Section ExportRecords.

Lemma evalLiteral_keys props rec :
  evalLiteral props = Ok rec -> rec.*1 = props.*1.
Proof.
  revert rec. induction props as [|[k [v|e]] props IH]; intros rec; simpl.
  - by intros [= <-].
  - destruct (evalLiteral props) as [rec'|]; simpl; [|done].
    intros [= <-]. simpl. f_equal. by apply IH.
  - done.
Qed.

Lemma evalLiteral_throw l1 k e l2 :
  Forall (fun p => exists v, p.2 = Ok v) l1 ->
  evalLiteral (l1 ++ (k, Throw e) :: l2) = Throw e.
Proof.
  induction 1 as [|[k' r] l1 [v Hv] _ IH]; [done|].
  simpl in Hv. subst r. simpl. by rewrite IH.
Qed.

Lemma mapResult_lookup {A B} (f : nat -> A -> Result B) index l ys k y :
  mapResult f index l = Ok ys ->
  ys !! k = Some y ->
  exists x, l !! k = Some x /\ f (index + k)%nat x = Ok y.
Proof.
  revert index ys k. induction l as [|x l IH]; intros index ys k; simpl.
  - by intros [= <-].
  - destruct (f index x) as [y'|] eqn:Hy; simpl; [|done].
    destruct (mapResult f (S index) l) as [ys'|] eqn:Hys; simpl; [|done].
    intros [= <-]. destruct k as [|k]; simpl.
    + intros [= <-]. exists x. by rewrite Nat.add_0_r.
    + intros Hk. destruct (IH _ _ _ Hys Hk) as (x' & Hx' & Hf).
      exists x'. split; [done|]. by replace (index + S k)%nat with (S index + k)%nat by lia.
Qed.

Lemma exportRecord_keys documentType index result rec :
  exportRecord documentType index result = Ok rec ->
  rec.*1 = exportKeys documentType.
Proof.
  intros Hrec%evalLiteral_keys. rewrite Hrec.
  rewrite exportFields_profile, fmap_app, <-list_fmap_compose.
  unfold exportKeys. simpl. do 3 f_equal.
Qed.

Lemma buildExportRecords_keys documentType items recs :
  buildExportRecords documentType items = Ok recs ->
  Forall (fun rec => rec.*1 = exportKeys documentType) recs.
Proof.
  intros Hrecs. apply Forall_lookup. intros k rec Hk.
  destruct (mapResult_lookup _ _ _ _ _ _ Hrecs Hk) as (r & _ & Hrec).
  by eapply exportRecord_keys.
Qed.

(** X1. All export records of a batch have the same own keys in the same
    order: No, Filename, Document Type, then the columns of the export
    schema of the selected document type (15 keys for DKPTKA, 19 for
    every other tag), whatever fields the individual records carry. *)
Theorem export_records_share_keys documentType items recs :
  buildExportRecords documentType items = Ok recs ->
  Forall (fun rec => rec.*1 = exportKeys documentType) recs
  /\ NoDup (exportKeys documentType)
  /\ length (exportKeys documentType)
     = (if String.eqb documentType "DKPTKA" then 15 else 19)%nat.
Proof.
  intros Hrecs. split; [by eapply buildExportRecords_keys|].
  unfold exportKeys, exportProfile.
  destruct (String.eqb documentType "DKPTKA"); (split; [|done]);
    apply (bool_decide_unpack _); by vm_compute.
Qed.

Lemma export_keys_example :
  exists recs, buildExportRecords "SKTT" batch_example = Ok recs
    /\ Forall (fun rec => rec.*1 = exportKeys "SKTT") recs.
Proof.
  destruct (buildExportRecords "SKTT" batch_example) as [recs|e] eqn:Hrecs.
  - destruct (export_records_share_keys "SKTT" batch_example recs Hrecs)
      as (Hall & _).
    by exists recs.
  - vm_compute in Hrecs. discriminate Hrecs.
Defined.

(** X4. When at least one record is exported, the CSV has the header line
    followed by one line per record, every line listing the cells of the
    same columns in the same order; the header is the comma-joined key list
    of the export schema, and splitting it at the commas gives the keys
    back. *)
Theorem csv_header_and_lines documentType items recs :
  buildExportRecords documentType items = Ok recs ->
  recs ≠ [] ->
  csvLines recs
  = join "," (exportKeys documentType)
      :: map (fun rec => join "," (map (csvCell rec) (exportKeys documentType))) recs
  /\ length (csvLines recs) = S (length recs)
  /\ split "," (join "," (exportKeys documentType)) = exportKeys documentType.
Proof.
  intros Hrecs Hne.
  assert (csvHeaders recs = exportKeys documentType) as Hhead.
  { pose proof (buildExportRecords_keys _ _ _ Hrecs) as Hall.
    destruct recs as [|rec recs]; [done|]. simpl.
    by apply Forall_cons in Hall as [? _]. }
  unfold csvLines. rewrite Hhead. split; [done|]. split.
  - simpl. by rewrite length_map.
  - unfold exportKeys, exportProfile.
    by destruct (String.eqb documentType "DKPTKA"); vm_compute.
Qed.

Lemma csv_lines_example :
  exists recs, buildExportRecords "DKPTKA" batch_example = Ok recs
    /\ length (csvLines recs) = 3%nat.
Proof.
  destruct (buildExportRecords "DKPTKA" batch_example) as [recs|e] eqn:Hrecs.
  - assert (recs ≠ []) as Hne.
    { vm_compute in Hrecs. injection Hrecs as <-. discriminate. }
    destruct (csv_header_and_lines "DKPTKA" batch_example recs Hrecs Hne)
      as (_ & Hlen & _).
    exists recs. split; [done|]. rewrite Hlen.
    vm_compute in Hrecs. by injection Hrecs as <-.
  - vm_compute in Hrecs. discriminate Hrecs.
Defined.

Lemma field_base documentType index result rec k r :
  exportRecord documentType index result = Ok rec ->
  (k, r) ∈ baseData index result documentType ->
  r = Ok (field rec k).
Proof.
  intros Hrec Hin. eapply evalLiteral_field; [exact Hrec|apply exportKeys_NoDup|].
  apply elem_of_app. by left.
Qed.

(** X2. The export numbers and names its records by position among the
    exported items: the record at position k (from 0) has No = k + 1 and the
    filename of the k-th item that is a success with data, and its Document
    Type is the record's "Jenis Dokumen" when that is truthy and the
    selected tag otherwise. *)
Theorem export_rows_are_numbered documentType items recs k rec :
  buildExportRecords documentType items = Ok recs ->
  recs !! k = Some rec ->
  exists r, List.filter successful items !! k = Some r
    /\ field rec "No" = JNum (Z.of_nat k + 1)
    /\ field rec "Filename" = filename r
    /\ field rec "Document Type"
       = orValue (default ∅ (data r)).["Jenis Dokumen"] (JStr documentType).
Proof.
  intros Hrecs Hk.
  destruct (mapResult_lookup _ _ _ _ _ _ Hrecs Hk) as (r & Hr & Hrec).
  exists r. split; [done|]. simpl in Hrec.
  repeat split.
  - assert (Ok (JNum (Z.of_nat k + 1)) = Ok (field rec "No")) as [= <-]; [|done].
    eapply field_base; [exact Hrec|]. unfold baseData. set_solver.
  - assert (Ok (filename r) = Ok (field rec "Filename")) as [= <-]; [|done].
    eapply field_base; [exact Hrec|]. unfold baseData. set_solver.
  - assert (Ok (default ∅ (data r)).["Jenis Dokumen"] ||| Ok (JStr documentType)
            = Ok (field rec "Document Type")) as Hf.
    { eapply field_base; [exact Hrec|]. unfold baseData. set_solver. }
    unfold orValue. simpl in Hf.
    destruct (truthy _); by injection Hf.
Qed.

Lemma export_rows_example :
  exists recs rec,
    buildExportRecords "SKTT" batch_example = Ok recs
    /\ recs !! 1%nat = Some rec
    /\ field rec "No" = JNum 2
    /\ field rec "Filename" = JStr "c.pdf"
    /\ field rec "Document Type" = JStr "SKTT".
Proof.
  destruct (buildExportRecords "SKTT" batch_example) as [recs|e] eqn:Hrecs.
  - destruct (recs !! 1%nat) as [rec|] eqn:Hrec.
    + destruct (export_rows_are_numbered "SKTT" batch_example recs 1 rec Hrecs Hrec)
        as (r & Hr & Hno & Hname & Htype).
      exists recs, rec. injection Hr as <-. by repeat split.
    + vm_compute in Hrecs. injection Hrecs as <-. discriminate Hrec.
  - vm_compute in Hrecs. discriminate Hrecs.
Defined.

Lemma evalChain_fields d ks :
  evalChain d (Field <$> ks)
  = Ok (from_option (get d) (JStr "") (List.find (fun k => truthy d.[k]) ks)).
Proof.
  induction ks as [|k ks IH]; [done|].
  cbn [fmap list_fmap evalChain evalSource List.find]. rewrite IH. simpl.
  by destruct (truthy d.[k]).
Qed.

Lemma evalChain_truthy_or_empty d chain v :
  evalChain d chain = Ok v -> v = JStr "" \/ truthy v = true.
Proof.
  induction chain as [|s chain IH]; simpl.
  - intros [= <-]. by left.
  - destruct (evalSource d s) as [w|e]; simpl; [|done].
    destruct (truthy w) eqn:Hw; [|done]. intros [= <-]. by right.
Qed.

(** X5. A field column of an export record never holds a falsy value
    other than the empty string: null, 0, false and missing values all
    become "", so its CSV cell is the stringified value between quotes and
    never reads null or undefined. *)
Theorem export_fields_truthy_or_empty documentType index result rec column chain :
  exportRecord documentType index result = Ok rec ->
  (column, chain) ∈ exportProfile documentType ->
  (field rec column = JStr "" \/ truthy (field rec column) = true)
  /\ csvCell rec column
     = String "034" "" +:+ toString (field rec column) +:+ String "034" "".
Proof.
  intros Hrec Hin.
  pose proof (exportRecord_field _ _ _ _ _ _ Hrec Hin) as Hf.
  apply evalChain_truthy_or_empty in Hf as Hcase.
  split; [done|]. unfold csvCell, orValue.
  by destruct Hcase as [-> | ->].
Qed.

Lemma export_fields_example :
  exists rec,
    exportRecord "SKTT" 0
      {| filename := JStr "a.pdf"; status := success;
         data := Some {[ "NIK" := JNum 0; "Name" := JNull ]};
         error_message := None |} = Ok rec
    /\ field rec "NIK" = JStr "" /\ field rec "Name" = JStr "".
Proof.
  set (item := {| filename := JStr "a.pdf" |}).
  destruct (exportRecord "SKTT" 0 item) as [rec|e] eqn:Hrec.
  - exists rec. split; [done|].
    destruct (export_fields_truthy_or_empty "SKTT" 0 item rec "NIK" [Field "NIK"] Hrec)
      as [[Hnik|Hnik] _]; [apply (bool_decide_unpack _); by vm_compute| |].
    + split; [done|]. vm_compute in Hrec. by injection Hrec as <-.
    + vm_compute in Hrec. injection Hrec as <-. discriminate Hnik.
  - vm_compute in Hrec. discriminate Hrec.
Defined.

(** X6. For a column whose rule reads plain keys only, the exported
    value is the value under the first key of the rule, in listed order,
    that holds a truthy value, and the empty string when none does. *)
Theorem export_takes_first_truthy_key documentType index result rec column ks :
  exportRecord documentType index result = Ok rec ->
  (column, Field <$> ks) ∈ exportProfile documentType ->
  let d := default ∅ (data result) in
  field rec column
  = from_option (get d) (JStr "") (List.find (fun k => truthy d.[k]) ks).
Proof.
  intros Hrec Hin d.
  pose proof (exportRecord_field _ _ _ _ _ _ Hrec Hin) as Hf.
  rewrite evalChain_fields in Hf. by injection Hf.
Qed.

Lemma export_first_truthy_example :
  exists rec,
    exportRecord "ITAS" 0
      {| filename := JStr "a.pdf"; status := success;
         data := Some {[ "Passport Number" := JStr "X1";
                         "Nomor Paspor" := JStr "B456" ]};
         error_message := None |} = Ok rec
    /\ field rec "Passport No" = JStr "X1".
Proof.
  set (item := {| filename := JStr "a.pdf" |}).
  destruct (exportRecord "ITAS" 0 item) as [rec|e] eqn:Hrec.
  - exists rec. split; [done|].
    rewrite (export_takes_first_truthy_key "ITAS" 0 item rec "Passport No"
               ["Passport No"; "Passport Number"; "Nomor Paspor"] Hrec).
    + by vm_compute.
    + apply (bool_decide_unpack _). by vm_compute.
  - vm_compute in Hrec. discriminate Hrec.
Defined.

Lemma evalChain_generic_ok d rule :
  rule ∈ profile_generic ->
  truthy d.["Place of Birth"] = true ->
  truthy d.["Date of Birth"] = true ->
  exists v, evalChain d rule.2 = Ok v.
Proof.
  intros Hin Hp Hd. unfold profile_generic in Hin.
  repeat (apply elem_of_cons in Hin as [->|Hin]);
    try (by apply elem_of_nil in Hin);
    cbn [snd evalChain evalSource];
    try rewrite (orElse_truthy _ _ Hp); try rewrite (orElse_truthy _ _ Hd);
    try (by eexists);
    repeat (match goal with
            | |- context [Ok ?v ||| _] => destruct (truthy v) eqn:?;
                [rewrite orElse_truthy by done | rewrite orElse_falsy by done]
            end);
    by eexists.
Qed.

Lemma evalChain_DKPTKA_ok d rule :
  rule ∈ profile_DKPTKA -> exists v, evalChain d rule.2 = Ok v.
Proof.
  intros Hin. unfold profile_DKPTKA in Hin.
  repeat (apply elem_of_cons in Hin as [->|Hin]);
    try (by apply elem_of_nil in Hin);
    cbn [snd evalChain evalSource];
    match goal with
    | |- context [Ok ?v ||| _] => destruct (truthy v) eqn:?;
        [rewrite orElse_truthy by done | rewrite orElse_falsy by done]
    end; by eexists.
Qed.

Lemma orElse_ok (a b : Result value) :
  (exists v, a = Ok v) -> (exists w, b = Ok w) -> exists u, a ||| b = Ok u.
Proof. intros [v ->] [w ->]. simpl. destruct (truthy v); by eexists. Qed.

Lemma baseData_ok index result documentType :
  Forall (fun p : string * Result value => exists v, p.2 = Ok v)
         (baseData index result documentType).
Proof.
  unfold baseData. repeat constructor; simpl; try by eexists.
  destruct (truthy _); by eexists.
Qed.

Lemma exportRecord_cases documentType index result :
  if exportThrows documentType (default ∅ (data result))
  then exportRecord documentType index result
       = Throw (TypeError "split is not a function")
  else exists rec, exportRecord documentType index result = Ok rec.
Proof.
  set (d := default ∅ (data result)).
  unfold exportThrows.
  destruct (String.eqb documentType "DKPTKA") eqn:Hdt; simpl.
  - apply evalLiteral_total, Forall_app. split; [apply baseData_ok|].
    rewrite exportFields_profile. unfold exportProfile. rewrite Hdt.
    apply Forall_fmap, Forall_forall. intros rule Hrule. simpl.
    by apply evalChain_DKPTKA_ok.
  - destruct (splittable d) eqn:Hs; simpl.
    { by apply exportRecord_total. }
    assert (forall i, optSplitAt i d.["Place & Date of Birth"]
                      = Throw (TypeError "split is not a function")) as Hsplit.
    { intros i. unfold splittable in Hs. by destruct (d.["Place & Date of Birth"]). }
    pose proof (Hsplit 0%nat) as H0. pose proof (Hsplit 1%nat) as H1.
    destruct (truthy d.["Place of Birth"]) eqn:Hp; simpl.
    + destruct (truthy d.["Date of Birth"]) eqn:Hd; simpl.
      * apply evalLiteral_total, Forall_app. split; [apply baseData_ok|].
        rewrite exportFields_profile. unfold exportProfile. rewrite Hdt.
        apply Forall_fmap, Forall_forall. intros rule Hrule. simpl.
        by apply evalChain_generic_ok.
      * unfold exportRecord, exportFields. rewrite Hdt. unfold fields_generic.
        fold d. rewrite H1.
        match goal with
        | |- evalLiteral (?b ++ ?n :: ?p :: (?k, ?x) :: ?rest)%list = _ =>
            change (evalLiteral ((b ++ [n; p]) ++ (k, x) :: rest)%list = Throw (TypeError "split is not a function"));
            assert (x = Throw (TypeError "split is not a function")) as -> by (simpl; by rewrite Hd)
        end.
        apply evalLiteral_throw, Forall_app. split; [apply baseData_ok|].
        repeat constructor; cbn [snd].
        -- repeat apply orElse_ok; by eexists.
        -- rewrite orElse_assoc, (orElse_truthy _ _ Hp). by eexists.
    + unfold exportRecord, exportFields. rewrite Hdt. unfold fields_generic.
      fold d. rewrite H0.
      match goal with
      | |- evalLiteral (?b ++ ?n :: (?k, ?x) :: ?rest)%list = _ =>
          change (evalLiteral ((b ++ [n]) ++ (k, x) :: rest)%list = Throw (TypeError "split is not a function"));
          assert (x = Throw (TypeError "split is not a function")) as -> by (simpl; by rewrite Hp)
      end.
      apply evalLiteral_throw, Forall_app. split; [apply baseData_ok|].
      repeat constructor; cbn [snd]; repeat apply orElse_ok; by eexists.
Qed.

(** X3. Building an export record throws exactly when the schema has the
    two birth columns (any tag but DKPTKA), the combined birth field is
    neither a string nor null nor absent (a number, a boolean, an array, an
    object), and the dedicated place or date field is falsy; the error is
    then the TypeError of calling [split]. In every other case the record
    is built. *)
Theorem export_throws_exactly_on_unsplittable documentType index result :
  if exportThrows documentType (default ∅ (data result))
  then exportRecord documentType index result
       = Throw (TypeError "split is not a function")
  else exists rec, exportRecord documentType index result = Ok rec.
Proof. apply exportRecord_cases. Qed.

End ExportRecords.

Section Table.

Lemma getTableData_heldItems st :
  getTableData st = imap tableRow (List.filter successful (heldItems st)).
Proof.
  unfold getTableData, heldItems.
  destruct (st_results st) as [res|]; [|done]. by destruct (results res).
Qed.

(** X7. The table body has one row per row that passes the search; the
    number shown in the No column is the row's position after filtering,
    starting at 1, and every row has one cell per column of the profile,
    computed from the row object of an item that is a success with data.
    With an empty search there is one row per such item. *)
Theorem table_rows_are_renumbered st :
  length (tableBody st)
  = length (filterBySearch (getTableData st) (searchQuery st))
  /\ (forall k row, tableBody st !! k = Some row ->
        cell_no row = Z.of_nat k + 1
        /\ length (cells row) = length (getTableColumns st)
        /\ exists i r,
             List.filter successful (heldItems st) !! i = Some r
             /\ cell_filename row = (tableRow i r).["filename"]
             /\ cells row = map (displayCell (tableRow i r)) (getTableColumns st))
  /\ (searchQuery st = "" ->
      length (tableBody st) = length (List.filter successful (heldItems st))).
Proof.
  split; [|split].
  - unfold tableBody. by rewrite length_imap.
  - intros k row Hk. unfold tableBody in Hk.
    apply list_lookup_imap_Some in Hk as (r & Hr & ->). simpl.
    split; [done|]. split; [by rewrite length_map|].
    apply list_elem_of_lookup_2, list_elem_of_In, filter_In in Hr as [Hr _].
    rewrite getTableData_heldItems in Hr.
    apply list_elem_of_In, elem_of_lookup_imap in Hr as (i & x & -> & Hx).
    by exists i, x.
  - intros Hq. unfold tableBody. rewrite length_imap, Hq.
    unfold filterBySearch. rewrite filter_all by done.
    by rewrite getTableData_heldItems, length_imap.
Qed.

Lemma table_rows_example :
  length (tableBody (state_example "EVLN" batch_example)) = 2%nat.
Proof.
  destruct (table_rows_are_renumbered (state_example "EVLN" batch_example))
    as (_ & _ & Hlen).
  by rewrite Hlen.
Defined.

Lemma string_app_nil_r (s : string) : s +:+ "" = s.
Proof. induction s as [|c s IH]; [done|]. by rewrite string_app_cons, IH. Qed.

Lemma string_app_assoc (a b c : string) : (a +:+ b) +:+ c = a +:+ (b +:+ c).
Proof. induction a as [|x a IH]; [done|]. by rewrite !string_app_cons, IH. Qed.

Lemma includes_segment s pre q post :
  includes s (pre +:+ q +:+ post) = true -> includes s q = true.
Proof.
  rewrite !includes_spec. intros (a & b & ->).
  exists (a +:+ pre), (post +:+ b).
  by rewrite (string_app_assoc a pre), (string_app_assoc pre (q +:+ post) b),
    (string_app_assoc q post b).
Qed.

Lemma string_app_empty (a b : string) : a +:+ b = "" -> a = "" /\ b = "".
Proof.
  destruct a as [|c a].
  - rewrite string_app_nil. by intros ->.
  - rewrite string_app_cons. done.
Qed.

Lemma keepRow_segment pre q post row :
  keepRow (pre +:+ q +:+ post) row = true -> keepRow q row = true.
Proof.
  unfold keepRow. destruct (String.eqb q "") eqn:Hq; [done|]. simpl.
  destruct (String.eqb (pre +:+ q +:+ post) "") eqn:Hfull.
  { apply String.eqb_eq, string_app_empty in Hfull as [_ [Hq' _]%string_app_empty].
    subst q. done. }
  simpl. unfold rowMatches. rewrite !existsb_exists.
  intros (kv & Hin & Hinc). exists kv. split; [done|].
  rewrite !toLowerCase_app in Hinc. by eapply includes_segment.
Qed.

Lemma filter_sublist {A} (f g : A -> bool) (l : list A) :
  (forall x, f x = true -> g x = true) ->
  List.filter f l `sublist_of` List.filter g l.
Proof.
  intros Hfg. induction l as [|x l IH]; simpl; [done|].
  destruct (f x) eqn:Hf.
  - rewrite (Hfg x Hf). by apply sublist_skip.
  - destruct (g x); [by apply sublist_cons|done].
Qed.

(** X8. Typing more narrows the result: for a query of ASCII characters,
    the rows kept for a query that contains [q] as a segment are a
    subsequence of the rows kept for [q]. *)
Theorem longer_query_keeps_fewer_rows rows pre q post :
  isAscii (pre +:+ q +:+ post) = true ->
  filterBySearch rows (pre +:+ q +:+ post) `sublist_of` filterBySearch rows q.
Proof. intros _. apply filter_sublist. intros row. apply keepRow_segment. Qed.

Lemma longer_query_example :
  filterBySearch rows_example "jakarta" `sublist_of` filterBySearch rows_example "kar".
Proof.
  apply (longer_query_keeps_fewer_rows rows_example "ja" "kar" "ta"). reflexivity.
Defined.

Lemma toLowerCase_empty s : toLowerCase s = "" <-> s = "".
Proof. by destruct s. Qed.

Lemma keepRow_query_case q1 q2 row :
  toLowerCase q1 = toLowerCase q2 -> keepRow q1 row = keepRow q2 row.
Proof.
  intros Hq. unfold keepRow, rowMatches. rewrite Hq. f_equal.
  destruct (String.eqb_spec q1 ""), (String.eqb_spec q2 ""); try done; subst.
  - simpl in Hq. symmetry in Hq. by apply (proj1 (toLowerCase_empty _)) in Hq.
  - simpl in Hq. by apply (proj1 (toLowerCase_empty _)) in Hq.
Qed.

(** X9. The letter case of the query does not matter: two queries with
    the same lower-casing keep the same rows. *)
Theorem query_letter_case_is_ignored rows q1 q2 :
  toLowerCase q1 = toLowerCase q2 ->
  filterBySearch rows q1 = filterBySearch rows q2.
Proof.
  intros Hq. unfold filterBySearch.
  induction rows as [|row rows IH]; simpl; [done|].
  by rewrite (keepRow_query_case q1 q2 row Hq), IH.
Qed.

Lemma query_case_example :
  filterBySearch rows_example "JaKarTa" = filterBySearch rows_example "jakarta".
Proof. apply query_letter_case_is_ignored. reflexivity. Defined.

Lemma includes_refl s : includes s s = true.
Proof. apply includes_spec. exists "", "". by rewrite string_app_nil_r. Qed.

(** X10. The search also reads the hidden [index] property of a row: a
    row whose record has no "index" field is kept by the query that spells
    its 0-based position, although no column of any profile displays that
    property. *)
Theorem row_position_is_searched index result documentType :
  default ∅ (data result) !! "index" = None ->
  keepRow (pretty (Z.of_nat index)) (tableRow index result) = true
  /\ "index" ∉ columnsOf documentType.
Proof.
  intros Hd. split.
  - unfold keepRow. apply orb_true_iff. right.
    unfold rowMatches. apply existsb_exists.
    exists ("index", JNum (Z.of_nat index)). split.
    + apply list_elem_of_In, elem_of_map_to_list. unfold tableRow.
      rewrite lookup_union_r by done.
      rewrite lookup_insert_ne by done. by rewrite lookup_singleton_eq.
    + apply includes_refl.
  - intros Hin. by apply columnsOf_not_reserved in Hin as [? _].
Qed.

Lemma row_position_example :
  keepRow "1"
    (tableRow 1 {| filename := JStr "b.pdf"; status := success;
                   data := Some {[ "Name" := JStr "Sari" ]};
                   error_message := None |}) = true.
Proof.
  apply (row_position_is_searched 1
           {| filename := JStr "b.pdf"; status := success;
              data := Some {[ "Name" := JStr "Sari" ]};
              error_message := None |} "EVLN").
  reflexivity.
Defined.

End Table.

Section Handlers.

Lemma filter_Forall {A} (f : A -> bool) l :
  Forall (fun x => f x = true) l -> List.filter f l = l.
Proof. induction 1 as [|x l Hx _ IH]; simpl; [done|]. by rewrite Hx, IH. Qed.

Lemma convertedResults_successful fs extraction :
  List.filter successful (convertedResults fs extraction)
  = convertedResults fs extraction.
Proof.
  apply filter_Forall, Forall_forall. intros r Hr.
  unfold convertedResults in Hr.
  by apply elem_of_lookup_imap in Hr as (i & e & -> & _).
Qed.

Lemma handleSubmit_accepts st f fs d :
  files st = Some (f :: fs) -> apiStatus st ≠ offline ->
  handleSubmit st (SubmitJson d)
  = setSubmitted st (Some (acceptedResults (enableFileRename st) (f :: fs) d)) "results".
Proof. intros Hf Hon. unfold handleSubmit. rewrite Hf. by destruct (apiStatus st). Qed.

(** X11. When an accepted response carries [extraction_data], the held
    items are rebuilt from it alone (the [results] the server sent are
    replaced): the table then has exactly one row per extraction record, in
    order, each containing every field of its record; the page switches to
    the results tab and stops loading. *)
Theorem submitted_extraction_becomes_the_rows st f fs d extraction :
  files st = Some (f :: fs) ->
  apiStatus st ≠ offline ->
  extraction_data d = Some extraction ->
  let st' := handleSubmit st (SubmitJson d) in
  heldItems st' = convertedResults (f :: fs) extraction
  /\ length (getTableData st') = length extraction
  /\ (forall i e, extraction !! i = Some e ->
        exists row, getTableData st' !! i = Some row
                    /\ forall k v, e !! k = Some v -> row !! k = Some v)
  /\ activeTab st' = "results" /\ loading st' = false.
Proof.
  intros Hf Hon Hex st'. subst st'. rewrite (handleSubmit_accepts st f fs d Hf Hon).
  assert (heldItems (setSubmitted st
            (Some (acceptedResults (enableFileRename st) (f :: fs) d)) "results")
          = convertedResults (f :: fs) extraction) as Hheld.
  { unfold heldItems, acceptedResults. simpl. rewrite Hex.
    by destruct (enableFileRename st). }
  split; [done|].
  assert (forall st', heldItems st' = convertedResults (f :: fs) extraction ->
            getTableData st' = imap tableRow (convertedResults (f :: fs) extraction))
    as Hrows.
  { intros st' Hst'. unfold getTableData. unfold heldItems in Hst'.
    destruct (st_results st') as [res|].
    - destruct (results res) as [items|]; simpl in Hst'; subst.
      + by rewrite convertedResults_successful.
      + by destruct extraction.
    - by destruct extraction. }
  rewrite (Hrows _ Hheld).
  split; [by unfold convertedResults; rewrite !length_imap|].
  split; [|done].
  intros i e He. eexists. split.
  - rewrite list_lookup_imap. unfold convertedResults.
    rewrite list_lookup_imap, He. reflexivity.
  - intros k v Hk. unfold tableRow. simpl. by apply lookup_union_Some_l.
Qed.

Lemma submitted_rows_example :
  length (getTableData (handleSubmit (ready_example true) (SubmitJson response_example)))
  = 1%nat.
Proof.
  destruct (submitted_extraction_becomes_the_rows (ready_example true)
              {| file_name := "a.pdf"; file_size := 1024;
                 file_type := "application/pdf" |} [] response_example
              [ {[ "Name" := JStr "Budi" ]} ]) as (_ & Hlen & _).
  - reflexivity.
  - discriminate.
  - reflexivity.
  - exact Hlen.
Defined.

(** X12. The filename of a rebuilt item is never falsy: it is the
    record's "Source_File" when that is truthy, else the name of the
    selected file at the same position when there is one with a non-empty
    name, else "File n" with n the 1-based position. *)
Theorem converted_filename_priority fs index (e : ExtractedData) :
  truthy (convertedFilename fs index e) = true
  /\ (truthy e.["Source_File"] = true -> convertedFilename fs index e = e.["Source_File"])
  /\ (truthy e.["Source_File"] = false ->
      forall f, fs !! index = Some f -> file_name f ≠ "" ->
                convertedFilename fs index e = JStr (file_name f))
  /\ (truthy e.["Source_File"] = false ->
      (fs !! index = None \/ exists f, fs !! index = Some f /\ file_name f = "") ->
      convertedFilename fs index e
      = JStr ("File " +:+ pretty (Z.of_nat index + 1))).
Proof.
  unfold convertedFilename, orValue.
  destruct (truthy e.["Source_File"]) eqn:Hs; simpl.
  - rewrite Hs. repeat split; done.
  - destruct (fs !! index) as [f|] eqn:Hf; simpl.
    + destruct (String.eqb_spec (file_name f) "") as [Hn|Hn]; simpl.
      * repeat split; try done. intros _ f' [= <-] Hne. done.
      * repeat split; try done.
        -- by apply negb_true_iff, String.eqb_neq.
        -- by intros _ f' [= <-] _.
        -- intros _ [?|(f' & [= <-] & ?)]; done.
    + repeat split; done.
Qed.

Lemma converted_filename_example :
  convertedFilename [] 2 {[ "Name" := JStr "Budi" ]} = JStr "File 3".
Proof.
  destruct (converted_filename_priority [] 2 {[ "Name" := JStr "Budi" ]})
    as (_ & _ & _ & Hdefault).
  apply Hdefault; [reflexivity | by left].
Defined.

Lemma files_parts_filter (fs : list File) :
  List.filter (fun p : string * FormValue => String.eqb p.1 "files")
              (map (fun file => ("files", FilePart file)) fs)
  = map (fun file => ("files", FilePart file)) fs.
Proof. induction fs as [|f fs IH]; simpl; [done|]. by rewrite IH. Qed.

(** X13. The submit button is disabled exactly when a submission is in
    flight or [handleSubmit] would return at one of its guards. A request
    that is sent goes to /extract-with-rename when renaming is enabled and
    to /extract-batch otherwise, never to /extract, and carries one "files"
    part per selected file, in order, plus one text field (three with
    renaming). When the guards stop it, [handleSubmit] changes nothing. *)
Theorem submit_button_and_guards_agree st :
  submitDisabled st = loading st || negb (bool_decide (is_Some (submitRequest st)))
  /\ (forall req, submitRequest st = Some req ->
        endpoint req = (if enableFileRename st then "/extract-with-rename"
                        else "/extract-batch")
        /\ endpoint req ≠ "/extract"
        /\ List.filter (fun p => String.eqb p.1 "files") (formData req)
           = map (fun file => ("files", FilePart file)) (default [] (files st))
        /\ length (formData req)
           = (length (default [] (files st)) + (if enableFileRename st then 3 else 1))%nat)
  /\ (submitRequest st = None -> forall o, handleSubmit st o = st).
Proof.
  unfold submitDisabled, submitRequest, handleSubmit.
  destruct (files st) as [[|f fs]|] eqn:Hfiles; simpl.
  - rewrite orb_true_r. by repeat split.
  - destruct (apiStatus st) eqn:Hst; simpl; destruct (enableFileRename st) eqn:Hren;
      simpl; rewrite ?orb_false_r, ?orb_true_r; (split; [done|]); (split; [|done]);
      intros req [= <-]; simpl; repeat split; try done.
    all: first [ rewrite ?List.filter_app, files_parts_filter; simpl;
                 by rewrite ?app_nil_r
               | rewrite ?length_app, length_map; simpl; lia ].
  - rewrite orb_true_r. by repeat split.
Qed.

Lemma submit_request_example :
  exists req, submitRequest (ready_example true) = Some req
    /\ endpoint req = "/extract-with-rename" /\ length (formData req) = 4%nat.
Proof.
  destruct (submit_button_and_guards_agree (ready_example true)) as (_ & Hreq & _).
  eexists. split; [reflexivity|].
  destruct (Hreq _ eq_refl) as (Hend & _ & _ & Hlen). by split.
Defined.

(** X14. After the health check the status is never "checking": it is
    online exactly when the probe was answered with a status from 200 to
    299, and offline otherwise. Offline blocks submission: no request is
    built, the button is disabled and [handleSubmit] leaves the state as it
    is. The check touches neither the selected files nor the held batch. *)
Theorem health_check_settles_the_status st o :
  let st' := checkApiStatus st o in
  apiStatus st' ≠ checking
  /\ (apiStatus st' = online <->
      exists r, o = Responded r /\ 200 <= resp_status r <= 299)
  /\ (apiStatus st' = offline ->
      submitRequest st' = None /\ submitDisabled st' = true
      /\ forall o', handleSubmit st' o' = st')
  /\ st_results st' = st_results st /\ files st' = files st.
Proof.
  intros st'. subst st'. unfold checkApiStatus, resp_ok.
  destruct o as [e|r]; simpl.
  - repeat split; try done.
    + by intros (r & ? & _).
    + unfold submitRequest. simpl. by destruct (files st) as [[|]|].
    + unfold submitDisabled. simpl. by rewrite orb_true_r.
    + intros o'. unfold handleSubmit. simpl. by destruct (files st) as [[|]|].
  - destruct (200 <=? resp_status r) eqn:Hlo; simpl;
      [destruct (resp_status r <=? 299) eqn:Hhi; simpl|].
    + repeat split; try done. intros _. exists r. split; [done|lia].
    + repeat split; try done.
      * intros (r' & [= <-] & ?). lia.
      * unfold submitRequest. simpl. by destruct (files st) as [[|]|].
      * unfold submitDisabled. simpl. by rewrite orb_true_r.
      * intros o'. unfold handleSubmit. simpl. by destruct (files st) as [[|]|].
    + repeat split; try done.
      * intros (r' & [= <-] & ?). lia.
      * unfold submitRequest. simpl. by destruct (files st) as [[|]|].
      * unfold submitDisabled. simpl. by rewrite orb_true_r.
      * intros o'. unfold handleSubmit. simpl. by destruct (files st) as [[|]|].
Qed.

(** X15. Selecting files discards the held batch: afterwards the table
    has no columns and no rows and the CSV export produces no file. A drop
    behaves like a selection, except that a drop without files leaves the
    page as it was. *)
Theorem selecting_files_discards_the_batch st targetFiles today :
  let st' := handleFileChange st targetFiles in
  files st' = targetFiles
  /\ st_results st' = None
  /\ getTableColumns st' = [] /\ tableBody st' = []
  /\ downloadAsExcel st' today = Ok None
  /\ (forall ui, page (handleDrop ui []) = page ui)
  /\ (forall ui f fs, page (handleDrop ui (f :: fs))
                      = handleFileChange (page ui) (Some (f :: fs))).
Proof. by repeat split. Qed.

Lemma health_check_example :
  submitRequest
    (checkApiStatus (ready_example false)
       (Responded {| resp_status := 503; resp_statusText := "Service Unavailable";
                     resp_text := inr ""; resp_blob_size := inr 0 |}))
  = None.
Proof.
  destruct (health_check_settles_the_status (ready_example false)
              (Responded {| resp_status := 503;
                            resp_statusText := "Service Unavailable";
                            resp_text := inr ""; resp_blob_size := inr 0 |}))
    as (_ & _ & Hoff & _).
  by destruct Hoff as (Hreq & _).
Defined.

End Handlers.

Section MoreDownloads.
Context (API_URL : string) (net : nat -> FetchOutcome) (a : Artifact).

Lemma retryCauseb_spec o : retryCauseb a o = true <-> retryCause a o.
Proof.
  unfold retryCauseb, retryCause. destruct (failureMessage a o) as [m|].
  - split; [by exists m|]. by intros (m' & [= <-] & ?).
  - split; [done|]. by intros (m' & ? & _).
Qed.

Lemma activation_path held res path rc o :
  held = Some res -> linkOf a res = Some path -> path ≠ "" ->
  activation API_URL a held rc o
  = prepend (Fetch (API_URL +:+ path) (timeoutOf a))
      match tryBody a (fileNameOf a path) rc o with
      | inr s => s
      | inl e => catchBlock a rc e
      end.
Proof.
  intros -> Hlink Hpath. unfold activation. rewrite Hlink.
  by apply String.eqb_neq in Hpath as ->.
Qed.

Lemma linked_path held :
  linked a held = true ->
  exists res path, held = Some res /\ linkOf a res = Some path /\ path ≠ "".
Proof.
  unfold linked. destruct held as [res|]; [|done].
  destruct (linkOf a res) as [path|] eqn:Hlink; [|done].
  intros Hp. apply negb_true_iff in Hp. apply String.eqb_neq in Hp.
  exists res, path. by repeat split.
Qed.

Lemma tryBody_failure name rc o m :
  failureMessage a o = Some m ->
  (exists e, tryBody a name rc o = inl e /\ errorMessageOf e = m)
  \/ (tryBody a name rc o = inr (Again [Sleep 3000])
      /\ belowTwo rc = true /\ retryable m = true).
Proof.
  unfold failureMessage, tryBody. destruct o as [e|r].
  - intros [= <-]. left. by exists e.
  - destruct (negb (resp_ok r)).
    + destruct (resp_text r) as [e|errorText].
      * intros [= <-]. left. by exists e.
      * intros [= <-].
        destruct ((resp_status r =? 404) && belowTwo rc) eqn:Hc.
        -- right. apply andb_true_iff in Hc as [Hs%Z.eqb_eq Hlt].
           split; [done|]. split; [done|]. by apply retryable_404.
        -- left. by eexists.
    + destruct (resp_blob_size r) as [e|size].
      * intros [= <-]. left. by exists e.
      * destruct (size =? 0); [|done]. intros [= <-]. left. by eexists.
Qed.

Lemma tryBody_success name rc o :
  failureMessage a o = None ->
  exists r size,
    o = Responded r /\ resp_ok r = true /\ resp_blob_size r = inr size /\ size ≠ 0
    /\ tryBody a name rc o
       = inr (Finished [SaveFile name size; ToastDone (doneTitle a) size]).
Proof.
  unfold failureMessage, tryBody. destruct o as [e|r]; [done|].
  destruct (resp_ok r) eqn:Hok; simpl.
  - destruct (resp_blob_size r) as [e|size] eqn:Hsize; [done|].
    destruct (size =? 0) eqn:Hz; [done|]. intros _.
    exists r, size. repeat split; try done. by apply Z.eqb_neq.
  - by destruct (resp_text r).
Qed.

(** X16. When the link is present and the fetch is answered with a 2xx
    status and a non-empty body, the download ends at once, whatever the
    retry count: one fetch of API_URL followed by the link, the file saved
    under the last segment of the link, and the completion toast. *)
Theorem download_succeeds_in_one_fetch held res path rc k r size :
  held = Some res -> linkOf a res = Some path -> path ≠ "" ->
  net k = Responded r ->
  200 <= resp_status r <= 299 ->
  resp_blob_size r = inr size -> size ≠ 0 ->
  download API_URL net a held rc k
  = [ Fetch (API_URL +:+ path) (timeoutOf a);
      SaveFile (fileNameOf a path) size;
      ToastDone (doneTitle a) size ].
Proof.
  intros Hheld Hlink Hpath Hnet Hstatus Hsize Hnz.
  rewrite download_step, (activation_path held res path rc _ Hheld Hlink Hpath), Hnet.
  unfold tryBody, resp_ok. rewrite Hsize.
  replace (200 <=? resp_status r) with true by (symmetry; apply Z.leb_le; lia).
  replace (resp_status r <=? 299) with true by (symmetry; apply Z.leb_le; lia).
  simpl. by apply Z.eqb_neq in Hnz as ->.
Qed.

(** X17. A failure whose message contains neither "404" nor "Network"
    ends the download after that single fetch with the terminal error toast,
    whatever the retry count. *)
Theorem unretryable_failure_ends_the_download held res path rc k m :
  held = Some res -> linkOf a res = Some path -> path ≠ "" ->
  failureMessage a (net k) = Some m ->
  retryable m = false ->
  download API_URL net a held rc k
  = [ Fetch (API_URL +:+ path) (timeoutOf a);
      ToastError (failedTitle a) (failedText a m) ].
Proof.
  intros Hheld Hlink Hpath Hm Hre.
  rewrite download_step, (activation_path held res path rc _ Hheld Hlink Hpath).
  destruct (tryBody_failure (fileNameOf a path) rc (net k) m Hm)
    as [(e & -> & <-)|(_ & _ & Hre')]; [|congruence].
  unfold catchBlock. by rewrite Hre, andb_false_r.
Qed.

Lemma activation_decides held rc o :
  linked a held = true ->
  exists url t,
    List.filter isFetch t = []
    /\ activation API_URL a held rc o
       = if belowTwo rc && retryCauseb a o
         then Again (Fetch url (timeoutOf a) :: t)
         else Finished (Fetch url (timeoutOf a) :: t).
Proof.
  intros (res & path & Hheld & Hlink & Hpath)%linked_path.
  rewrite (activation_path held res path rc o Hheld Hlink Hpath).
  exists (API_URL +:+ path).
  destruct (match tryBody a (fileNameOf a path) rc o with
            | inr s => s
            | inl e => catchBlock a rc e
            end) as [t|t] eqn:Hatt.
  - exists t. split; [by apply attempt_finished in Hatt as (? & _)|].
    destruct (belowTwo rc && retryCauseb a o) eqn:Hc; [|done].
    apply andb_true_iff in Hc as [Hlt Hcause].
    unfold retryCauseb in Hcause.
    destruct (failureMessage a o) as [m|] eqn:Hm; [|done].
    destruct (tryBody_failure (fileNameOf a path) rc o m Hm)
      as [(e & He & <-)|(He & _)]; rewrite He in Hatt; [|done].
    unfold catchBlock in Hatt. by rewrite Hlt, Hcause in Hatt.
  - exists t. apply attempt_again in Hatt as (Hlt & Hcause%retryCauseb_spec & Hf & _).
    split; [done|]. by rewrite Hlt, Hcause.
Qed.

Lemma fetchAttempts_step held rc k :
  linked a held = true ->
  fetchAttempts (download API_URL net a held rc k)
  = S (if belowTwo rc && retryCauseb a (net k)
       then fetchAttempts (download API_URL net a held (plusOne rc) (S k))
       else 0).
Proof.
  intros Hl. rewrite download_step.
  destruct (activation_decides held rc (net k) Hl) as (url & t & Hf & ->).
  destruct (belowTwo rc && retryCauseb a (net k)).
  - change (Fetch url (timeoutOf a) :: t) with ([Fetch url (timeoutOf a)] ++ t)%list.
    rewrite !fetchAttempts_app. unfold fetchAttempts at 1 2. simpl. by rewrite Hf.
  - unfold fetchAttempts. simpl. by rewrite Hf.
Qed.

(** X18. Started with the default retry count and a present link, the
    download makes one fetch, plus one if the first failed with a retryable
    message, plus one more if the second did as well. *)
Theorem retries_follow_the_failures held :
  linked a held = true ->
  fetchAttempts (download API_URL net a held (Num 0) 0)
  = (if retryCauseb a (net 0%nat)
     then if retryCauseb a (net 1%nat) then 3 else 2
     else 1)%nat.
Proof.
  intros Hl. rewrite (fetchAttempts_step held _ _ Hl). simpl.
  destruct (retryCauseb a (net 0%nat)); [|done].
  rewrite (fetchAttempts_step held _ _ Hl). simpl.
  destruct (retryCauseb a (net 1%nat)); [|done].
  by rewrite (fetchAttempts_step held _ _ Hl).
Qed.

End MoreDownloads.

Lemma download_success_example :
  downloadRenamedZip "https://api"
    (fun _ => Responded {| resp_status := 200; resp_statusText := "OK";
                           resp_text := inr ""; resp_blob_size := inr 2048 |})
    linked_example NotNumeric
  = [ Fetch "https://api/download/renamed.zip" 60000;
      SaveFile "renamed.zip" 2048;
      ToastDone "Download Complete" 2048 ].
Proof.
  unfold downloadRenamedZip.
  eapply (download_succeeds_in_one_fetch "https://api" _ ZipArchive
            (st_results linked_example) _ "/download/renamed.zip" NotNumeric 0);
    [reflexivity | reflexivity | discriminate | reflexivity | simpl; lia
    | reflexivity | discriminate].
Defined.

Lemma timeout_example :
  downloadExcelFromBackend "https://api" (fun _ => Rejected AbortError)
    linked_example (Num 0)
  = [ Fetch "https://api/download/hasil.xlsx" 30000;
      ToastError "Excel Download Error"
        "Failed to download Excel file: Download timed out. Please try again." ].
Proof.
  unfold downloadExcelFromBackend.
  eapply (unretryable_failure_ends_the_download "https://api" _ ExcelSheet
            (st_results linked_example) _ "/download/hasil.xlsx" (Num 0) 0);
    [reflexivity | reflexivity | discriminate | reflexivity | reflexivity].
Defined.


Lemma retries_example :
  fetchAttempts
    (download "https://api"
       (fun k => match k with
                 | O => Rejected (TypeErr "Failed to fetch")
                 | _ => Rejected AbortError
                 end)
       ZipArchive (st_results linked_example) (Num 0) 0)
  = 2%nat.
Proof.
  by rewrite retries_follow_the_failures.
Defined.

Section FileNames.

Lemma split_nonempty c s : split c s ≠ [].
Proof. destruct s as [|x s]; simpl; [done|]. destruct (Ascii.eqb x c); [done|]. by destruct (split c s). Qed.

Lemma split_no_separator c s :
  includes s (String c "") = false -> split c s = [s].
Proof.
  induction s as [|x s IH]; [done|].
  rewrite includes_cons. intros [Hp Hs]%orb_false_iff.
  simpl in Hp. destruct (ascii_dec c x) as [->|Hne].
  - by destruct s.
  - simpl. apply Ascii.eqb_neq in Hne. rewrite Ascii.eqb_sym, Hne.
    by rewrite (IH Hs).
Qed.

Lemma split_after_separator c dir rest :
  (2 <= length (split c (dir +:+ String c rest)))%nat
  /\ last (split c (dir +:+ String c rest)) = last (split c rest).
Proof.
  induction dir as [|x dir [IHlen IHlast]].
  - rewrite string_app_nil. simpl. rewrite Ascii.eqb_refl.
    pose proof (split_nonempty c rest). destruct (split c rest); [done|].
    split; [simpl; lia|done].
  - rewrite string_app_cons. simpl.
    destruct (split c (dir +:+ String c rest)) as [|w [|w' ws]] eqn:Hsplit;
      simpl in IHlen; try lia.
    destruct (Ascii.eqb x c); (split; [simpl; lia|done]).
Qed.

(** X21. The name a download is saved under is never empty: it is the
    text after the last slash of the link, and the default name of the
    artifact when the link ends with a slash. *)
Theorem saved_name_is_the_last_segment a :
  (forall path, fileNameOf a path ≠ "")
  /\ (forall dir name,
        name ≠ "" -> includes name "/" = false ->
        fileNameOf a (dir +:+ "/" +:+ name) = name)
  /\ (forall dir, fileNameOf a (dir +:+ "/") = defaultName a).
Proof.
  split; [|split].
  - intros path. unfold fileNameOf.
    destruct (last (split "/" path)) as [name|]; [|by destruct a].
    destruct (String.eqb_spec name ""); [by destruct a|done].
  - intros dir name Hne Hsep. unfold fileNameOf.
    change ("/" +:+ name) with (String "/" name).
    destruct (split_after_separator "/" dir name) as [_ ->].
    rewrite (split_no_separator _ _ Hsep). simpl.
    by apply String.eqb_neq in Hne as ->.
  - intros dir. unfold fileNameOf.
    by destruct (split_after_separator "/" dir "") as [_ ->].
Qed.

Lemma saved_name_example :
  fileNameOf ZipArchive "/download/renamed.zip" = "renamed.zip".
Proof.
  destruct (saved_name_is_the_last_segment ZipArchive) as (_ & Hname & _).
  apply (Hname "/download" "renamed.zip"); [discriminate | reflexivity].
Defined.

End FileNames.

Section DownloadTraces.
Context (API_URL : string) (net : nat -> FetchOutcome) (a : Artifact)
        (held : option ApiResponse).

Lemma filter_nil_Forall {A} (f : A -> bool) l :
  List.filter f l = [] -> Forall (fun x => f x = false) l.
Proof.
  induction l as [|x l IH]; simpl; [done|].
  destruct (f x) eqn:Hx; [done|]. intros Hl. constructor; [done|by apply IH].
Qed.

(** X19. Every fetch of a download, first attempt and retries alike,
    requests the same URL, API_URL followed by the link of the held batch,
    with the timeout of the artifact. *)
Theorem every_fetch_targets_the_link res path rc k :
  held = Some res -> linkOf a res = Some path ->
  Forall (fun e => isFetch e = true -> e = Fetch (API_URL +:+ path) (timeoutOf a))
         (download API_URL net a held rc k).
Proof.
  intros Hheld Hlink.
  destruct (String.eqb_spec path "") as [Hempty|Hpath].
  { assert (linked a held = false) as Hl.
    { unfold linked. rewrite Hheld, Hlink, Hempty. done. }
    destruct (download_unlinked API_URL net a held rc k Hl) as [d ->].
    by repeat constructor. }
  remember (budget rc) as b eqn:Hb. revert rc k Hb.
  induction b as [b IH] using lt_wf_ind. intros rc k ->.
  rewrite download_step, (activation_path API_URL a held res path rc _ Hheld Hlink Hpath).
  destruct (match tryBody a (fileNameOf a path) rc (net k) with
            | inr s => s
            | inl e => catchBlock a rc e
            end) as [t|t] eqn:Hatt; simpl.
  - apply attempt_finished in Hatt as (Hf & _).
    constructor; [done|].
    eapply Forall_impl; [by apply filter_nil_Forall|]. simpl. congruence.
  - apply attempt_again in Hatt as (Hlt & _ & Hf & _).
    constructor; [done|]. apply Forall_app. split.
    + eapply Forall_impl; [by apply filter_nil_Forall|]. simpl. congruence.
    + by eapply IH; [apply budget_plusOne|].
Qed.

Lemma attempt_shapes name rc o t :
  match tryBody a name rc o with
  | inr s => s
  | inl e => catchBlock a rc e
  end = Finished t ->
  (exists d, t = [ToastError (failedTitle a) d])
  \/ (exists r size,
        o = Responded r /\ resp_ok r = true /\ resp_blob_size r = inr size
        /\ size ≠ 0
        /\ t = [SaveFile name size; ToastDone (doneTitle a) size]).
Proof.
  destruct (tryBody a name rc o) as [e|s] eqn:Hbody.
  - intros Hc%catchBlock_finished. by left.
  - intros ->. right. unfold tryBody in Hbody.
    destruct o as [e|r]; [done|].
    destruct (resp_ok r) eqn:Hok; simpl in Hbody.
    + destruct (resp_blob_size r) as [e|size] eqn:Hsize; [done|].
      destruct (size =? 0) eqn:Hz; [done|]. injection Hbody as <-.
      exists r, size. repeat split; try done. by apply Z.eqb_neq.
    + destruct (resp_text r); [done|]. by destruct (_ && _).
Qed.

Lemma attempt_again_shapes name rc o t :
  match tryBody a name rc o with
  | inr s => s
  | inl e => catchBlock a rc e
  end = Again t ->
  Forall (fun e => forall n s, e ≠ SaveFile n s) t.
Proof.
  destruct (tryBody a name rc o) as [e|s] eqn:Hbody.
  - intros (_ & _ & d & ->)%catchBlock_again. by repeat constructor.
  - intros ->. unfold tryBody in Hbody.
    repeat (case_match; simplify_eq/=). by repeat constructor.
Qed.

(** X22. A file is saved at most once in a download, as its last action
    before the completion toast, and only from a fetch answered with a 2xx
    status and a non-empty body of the saved size; its name is derived from
    the link of the held batch. *)
Theorem a_file_is_saved_only_from_a_good_response rc k name size :
  SaveFile name size ∈ download API_URL net a held rc k ->
  (exists j r, net (k + j)%nat = Responded r
               /\ 200 <= resp_status r <= 299
               /\ resp_blob_size r = inr size /\ size ≠ 0)
  /\ (exists path, held ≫= linkOf a = Some path /\ name = fileNameOf a path)
  /\ exists trace,
       download API_URL net a held rc k
       = (trace ++ [SaveFile name size; ToastDone (doneTitle a) size])%list
       /\ Forall (fun e => forall n s, e ≠ SaveFile n s) trace.
Proof.
  destruct (linked a held) eqn:Hl; cycle 1.
  { destruct (download_unlinked API_URL net a held rc k Hl) as [d ->].
    intros Hin. apply list_elem_of_singleton in Hin. done. }
  destruct (linked_path a held Hl) as (res & path & Hheld & Hlink & Hpath).
  remember (budget rc) as b eqn:Hb. revert rc k Hb.
  induction b as [b IH] using lt_wf_ind. intros rc k ->.
  rewrite download_step, (activation_path API_URL a held res path rc _ Hheld Hlink Hpath).
  destruct (match tryBody a (fileNameOf a path) rc (net k) with
            | inr s => s
            | inl e => catchBlock a rc e
            end) as [t|t] eqn:Hatt; simpl.
  - apply attempt_shapes in Hatt as [[d ->]|(r & sz & Hnet & Hok & Hsz & Hnz & ->)].
    + intros Hin. repeat (apply elem_of_cons in Hin as [?|Hin]; [done|]).
      by apply elem_of_nil in Hin.
    + intros Hin. apply elem_of_cons in Hin as [?|Hin]; [done|].
      apply elem_of_cons in Hin as [[= -> ->]|Hin]; cycle 1.
      { apply list_elem_of_singleton in Hin. done. }
      split; [|split].
      * exists 0%nat, r. rewrite Nat.add_0_r. repeat split; try done;
          unfold resp_ok in Hok; apply andb_true_iff in Hok as [?%Z.leb_le ?%Z.leb_le]; lia.
      * exists path. by rewrite Hheld.
      * exists [Fetch (API_URL +:+ path) (timeoutOf a)]. split; [done|].
        by repeat constructor.
  - pose proof (attempt_again_shapes _ _ _ _ Hatt) as Hnosave.
    apply attempt_again in Hatt as (Hlt & _).
    intros Hin. apply elem_of_cons in Hin as [?|Hin]; [done|].
    apply elem_of_app in Hin as [Hin|Hin].
    { exfalso. by eapply (proj1 (Forall_forall _ _) Hnosave). }
    destruct (IH _ (budget_plusOne rc Hlt) (plusOne rc) (S k) eq_refl Hin)
      as ((j & r & Hnet & Hrest) & Hname & trace & Htrace & Hclean).
    split; [|split; [done|]].
    + exists (S j), r. by replace (k + S j)%nat with (S k + j)%nat by lia.
    + exists (Fetch (API_URL +:+ path) (timeoutOf a) :: t ++ trace)%list.
      split.
      * rewrite Htrace. simpl. by rewrite app_assoc.
      * constructor; [done|]. by apply Forall_app.
Qed.

End DownloadTraces.

(** X20. The Excel card is rendered exactly when the guards of
    [downloadExcelFromBackend] pass. Its button passes the click event as
    retry count, so one click makes exactly one fetch, whatever the
    outcome. *)
Theorem excel_button_fetches_exactly_once API_URL net st :
  excelCardVisible st = linked ExcelSheet (st_results st)
  /\ (excelCardVisible st = true ->
      fetchAttempts (downloadExcelFromBackend API_URL net st NotNumeric) = 1%nat)
  /\ (excelCardVisible st = false ->
      fetchAttempts (downloadExcelFromBackend API_URL net st NotNumeric) = 0%nat).
Proof.
  assert (excelCardVisible st = linked ExcelSheet (st_results st)) as Hvis.
  { unfold excelCardVisible, linked, linkOf.
    destruct (st_results st) as [res|]; [|done].
    by destruct (download_links res). }
  split; [done|]. rewrite Hvis. unfold downloadExcelFromBackend. split; intros Hl.
  - destruct (download_linked API_URL net ExcelSheet (st_results st) NotNumeric 0%nat Hl)
      as ((Hlo & Hhi) & _). simpl in Hhi. lia.
  - by destruct (download_unlinked API_URL net ExcelSheet (st_results st) NotNumeric 0%nat Hl)
      as [d ->].
Qed.

Lemma excel_button_example :
  fetchAttempts
    (downloadExcelFromBackend "https://api" (fun _ => server_error_example)
       linked_example NotNumeric)
  = 1%nat.
Proof.
  apply (excel_button_fetches_exactly_once "https://api" _ linked_example).
  reflexivity.
Defined.

Lemma fetch_targets_example :
  Forall (fun e => isFetch e = true -> e = Fetch "https://api/download/hasil.xlsx" 30000)
         (download "https://api" (fun _ => server_error_example) ExcelSheet
            (st_results linked_example) (Num 0) 0).
Proof.
  eapply (every_fetch_targets_the_link "https://api" _ ExcelSheet
            (st_results linked_example) _ "/download/hasil.xlsx");
    reflexivity.
Defined.

Lemma saved_file_example :
  exists j r,
    (fun k : nat =>
       match k with
       | O => Responded {| resp_status := 404; resp_statusText := "Not Found";
                           resp_text := inr ""; resp_blob_size := inr 0 |}
       | _ => Responded {| resp_status := 200; resp_statusText := "OK";
                           resp_text := inr ""; resp_blob_size := inr 2048 |}
       end) (0 + j)%nat = Responded r
    /\ 200 <= resp_status r <= 299
    /\ resp_blob_size r = inr 2048 /\ 2048 ≠ 0.
Proof.
  eapply (a_file_is_saved_only_from_a_good_response "https://api" _ ZipArchive
            (st_results linked_example) (Num 0) 0 "renamed.zip" 2048).
  apply list_elem_of_In. vm_compute. tauto.
Defined.
(** * The placeholder, the birth field, the search and the buttons *)

(** ** The placeholder of a column without keys *)

Section Placeholder.




End Placeholder.

(** ** The split of the combined birth field *)

Section BirthField.
















End BirthField.

(** ** What the search filter selects *)

Section SearchedProperties.












End SearchedProperties.

(** ** The downloads as the buttons start them *)

Section Buttons.





End Buttons.

(** ** The export of a batch without a successful item *)

Section EmptyExport.

(** C8, as the code has it. When no held item is a success with data, no
    export record is built, the header list is empty and the lines to join
    are the single empty header line. If the held batch has a results
    array, the export produces its file with empty text: nothing is thrown
    and no column name of the document type appears. If no batch is held,
    or the held batch came without a results array, the export returns
    without producing a file. *)
Theorem C8_no_success_gives_empty_csv_or_no_file st today :
  Forall (fun r => successful r = false) (heldItems st) ->
  buildExportRecords (documentType st) (heldItems st) = Ok []
  /\ csvHeaders [] = []
  /\ csvLines [] = [""]
  /\ downloadAsExcel st today
     = match st_results st with
       | Some res =>
           match results res with
           | Some _ =>
               Ok (Some {| csv_name := "Hasil_Ekstraksi_" +:+ documentType st
                                         +:+ "_" +:+ today +:+ ".csv";
                           csv_text := "" |})
           | None => Ok None
           end
       | None => Ok None
       end.
Proof.
  intros Hnone.
  assert (List.filter successful (heldItems st) = []) as Hfilter.
  { induction Hnone as [|r l Hr _ IH]; simpl; [done|]. by rewrite Hr. }
  assert (buildExportRecords (documentType st) (heldItems st) = Ok []) as Hbuild.
  { unfold buildExportRecords. by rewrite Hfilter. }
  repeat split; try done.
  unfold downloadAsExcel. unfold heldItems in Hbuild.
  destruct (st_results st) as [res|]; [|done].
  destruct (results res) as [items|]; [|done].
  simpl in Hbuild. by rewrite Hbuild.
Qed.

Lemma C8_example_failed_batch :
  downloadAsExcel
    (state_example "EVLN"
       [ {| filename := JStr "a.pdf"; status := error; data := None;
            error_message := Some "unreadable" |} ])
    "2025-01-01"
  = Ok (Some {| csv_name := "Hasil_Ekstraksi_EVLN_2025-01-01.csv"; csv_text := "" |}).
Proof.
  set (st := state_example _ _).
  destruct (C8_no_success_gives_empty_csv_or_no_file st "2025-01-01")
    as (_ & _ & _ & Hcsv).
  - apply (bool_decide_unpack _). by vm_compute.
  - exact Hcsv.
Defined.

(** C8 as stated fails on a held batch that came without a results array:
    it has no successful item, and the export returns without producing any
    file. *)
Lemma C8_counterexample_no_results_array :
  (exists res, st_results linked_example = Some res /\ results res = None)
  /\ Forall (fun r => successful r = false) (heldItems linked_example)
  /\ downloadAsExcel linked_example "2025-01-01" = Ok None.
Proof. split; [by eexists|]. by split. Qed.

End EmptyExport.
